(** * Warehouse table API: schema catalog operations

    A shallow embedding of [posthog/warehouse/api/table.py]
    ([TableSerializer.create], [TableViewSet.destroy],
    [TableViewSet.update_schema], [TableViewSet.refresh_schema])
    over an explicit database state, followed by the properties of the
    catalog operations.

    Conventions.
    - The ORM is modelled by a record [DB] holding the rows of the two
      models, keyed by primary key, and the queue of submitted tasks.
      [get_object] loads a row into a request-local value, [save] writes
      it back; nothing else touches the rows.
    - A Python [dict] is a [gmap]; the [updates] payload keeps the
      iteration order of its members, as [for key, value in
      updates.items()] observes it.
    - A view either returns a [Response] or lets an exception escape. *)

From Stdlib Require Import ZArith String Ascii.
From stdpp Require Import base option list gmap strings fin_maps.


(** ** JSON values *)

(** What [request.data] can hold. [JNull] is Python's [None]; a missing
    "updates" member also reads as [None] through [.get("updates", None)].
    [JNum] stands for any number: no operation here looks inside one. *)
#[local] Unset Elimination Schemes.
Inductive json :=
| JNull
| JBool (b : bool)
| JNum (n : Z)
| JStr (s : string)
| JArr (items : list json)
| JObj (members : list (string * json)).
#[local] Set Elimination Schemes.

(** ** [str.upper] on ASCII text *)

(** The letters a-z go to A-Z and every other byte is kept. This is
    [str.upper] for ASCII text only: Python also changes letters outside
    ASCII, which this model leaves as they are, so a statement about
    [upper] speaks for the view on ASCII strings. *)

Definition upper_ascii (c : ascii) : ascii :=
  let n := nat_of_ascii c in
  if Nat.leb 97 n && Nat.leb n 122 then ascii_of_nat (n - 32) else c.

Fixpoint upper (s : string) : string :=
  match s with
  | EmptyString => EmptyString
  | String c rest => String (upper_ascii c) (upper rest)
  end.

(** ** Rows *)

(** An entry of [DataWarehouseTable.columns]: either the "old" style, a
    bare native type string, or a dict with the members "clickhouse",
    "hogql" and "valid" (and whatever else was stored with them). *)
Inductive column :=
| OldStyle (clickhouse : string)
| Descriptor (d : gmap string json).

Module DataWarehouseCredential.
Record t := Make {
  team_id : nat;
  access_key : string;
  access_secret : string
}.
End DataWarehouseCredential.

(** The primary key of a row is its key in [tables]; an instance in a
    view is the row together with the [pk] it was loaded at. *)
Module DataWarehouseTable.
Record t := Make {
  team_id : nat;
  created_by : nat;
  name : string;
  format : string;
  url_pattern : string;
  credential : option nat;
  external_data_source : option nat;
  deleted : bool;
  columns : gmap string column
}.

(** [table.columns = cols] *)
Definition set_columns (table : t) (cols : gmap string column) : t :=
  Make (team_id table) (created_by table) (name table) (format table)
       (url_pattern table) (credential table)
       (external_data_source table) (deleted table) cols.

(** [table.deleted = b] *)
Definition set_deleted (table : t) (b : bool) : t :=
  Make (team_id table) (created_by table) (name table) (format table)
       (url_pattern table) (credential table)
       (external_data_source table) b (columns table).
End DataWarehouseTable.

Module Tbl := DataWarehouseTable.
Module Cred := DataWarehouseCredential.

(** ** The database *)

Record DB := MkDB {
  tables : gmap nat Tbl.t;          (* DataWarehouseTable.objects *)
  credentials : gmap nat Cred.t;    (* DataWarehouseCredential.objects *)
  tasks : list (nat * nat)          (* validate_data_warehouse_table_columns.delay(team_id, id) *)
}.

(** ** Responses, exceptions and control flow *)

(** The [data={"message": ...}] bodies of the 400 responses. The two
    f-strings keep the values they interpolate. *)
Inductive message :=
| CantDeleteSourcedTable              (* "Can't delete a sourced table" *)
| MustBeManuallyLinked                (* "The table must be a manually linked table" *)
| ColumnDoesNotExist (key : string)   (* f"Column {key} does not exist on table" *)
| CanNotParseType (value : json) (key : string).
    (* f"Can not parse type {value} for column {key} - type does not exist" *)

Record Response := MkResponse { status : nat; data : option message }.

Definition HTTP_200_OK : nat := 200.
Definition HTTP_204_NO_CONTENT : nat := 204.
Definition HTTP_400_BAD_REQUEST : nat := 400.

Inductive exn :=
| Http404                         (* get_object found no row *)
| AttributeError                  (* .keys() on something that is not a dict *)
| TypeError                       (* item assignment on a str *)
| KeyError (key : string)
| Exception (msg : string)        (* raised by a collaborator *)
| ValidationError (detail : string).

(** Where a statement of a function body with return type [R] leaves
    control: on the next statement with a value, at a [return], or in an
    exception that nothing caught. *)
Inductive flow (R A : Type) : Type :=
| Continue (a : A)
| Return (r : R)
| Raise (e : exn).
Arguments Continue {R A} a.
Arguments Return {R A} r.
Arguments Raise {R A} e.

Definition flow_bind {R A B} (m : flow R A) (k : A -> flow R B) : flow R B :=
  match m with
  | Continue a => k a
  | Return r => Return r
  | Raise e => Raise e
  end.

(** A function body run against the database. *)
Definition view (R A : Type) : Type := DB -> flow R A * DB.

Definition pure {R A} (m : flow R A) : view R A := fun db => (m, db).

Definition bind {R A B} (m : view R A) (k : A -> view R B) : view R B :=
  fun db =>
    match m db with
    | (Continue a, db') => k a db'
    | (Return r, db') => (Return r, db')
    | (Raise e, db') => (Raise e, db')
    end.

Notation "x <- m ;; k" := (bind m (fun x => k))
  (at level 100, m at next level, right associativity).
Notation "'run' m ;; k" := (bind m (fun _ => k))
  (at level 100, m at next level, right associativity).

(** A body always ends in [return] or [raise]. *)
Definition body (R : Type) : Type := view R Empty_set.

(** ** ORM operations *)

(** [self.get_object()] under [safely_get_queryset]: the row with this
    primary key among the team's rows that are not deleted. *)
Definition lookup_object (team pk : nat) (db : DB) : option Tbl.t :=
  match tables db !! pk with
  | Some table =>
      if bool_decide (Tbl.team_id table = team) && negb (Tbl.deleted table)
      then Some table else None
  | None => None
  end.

Definition get_object {R} (team pk : nat) : view R Tbl.t :=
  fun db =>
    match lookup_object team pk db with
    | Some table => (Continue table, db)
    | None => (Raise Http404, db)
    end.

(** [table.save()] *)
Definition save {R} (pk : nat) (table : Tbl.t) : view R unit :=
  fun db => (Continue tt, MkDB (<[pk := table]> (tables db)) (credentials db) (tasks db)).

(** [DataWarehouseCredential.objects.create(...)] *)
Definition create_credential {R} (c : Cred.t) : view R nat :=
  fun db =>
    let pk := fresh (dom (credentials db)) in
    (Continue pk, MkDB (tables db) (<[pk := c]> (credentials db)) (tasks db)).

(** [validate_data_warehouse_table_columns.delay(team_id, str(table.id))] *)
Definition delay {R} (team pk : nat) : view R unit :=
  fun db => (Continue tt, MkDB (tables db) (credentials db) (tasks db ++ [(team, pk)])).

(** Reading the database without changing it. *)
Definition query {R A} (f : DB -> A) : view R A := fun db => (Continue (f db), db).

(** [DataWarehouseTable.objects.exclude(deleted=True)
       .filter(team_id=team_id, name=name).exists()] *)
Definition table_name_exists (team : nat) (n : string) (db : DB) : bool :=
  existsb
    (fun row => negb (Tbl.deleted row.2)
                && bool_decide (Tbl.team_id row.2 = team)
                && bool_decide (Tbl.name row.2 = n))
    (map_to_list (tables db)).

(** Modelled from the spec: [DataWarehouseTable.soft_delete], a method of
    the model class, which is not part of this module. The spec has it
    "set the deleted flag", with "no cascading physical deletion of
    dependent rows": the instance is marked and saved, no row is removed. *)
Definition soft_delete {R} (pk : nat) (instance : Tbl.t) : view R unit :=
  save pk (Tbl.set_deleted instance true).

(** [validated_data] of [TableSerializer]: the writable fields. [deleted]
    is [False] when the request leaves it out; [credential] is the nested
    [access_key] / [access_secret] pair, [None] when [validated_data] has
    no credential. The nested serializer requires both members, so an
    empty dict does not come out of validation. *)
Module ValidatedData.
Record t := Make {
  name : string;
  format : string;
  url_pattern : string;
  deleted : bool;
  credential : option (string * string)
}.
End ValidatedData.

(** The constructor [DataWarehouseTable] on the unpacked [validated_data],
    once [team_id], [created_by] and the credential are stored in it. No
    external data source (the serializer field is read-only) and no
    column yet. *)
Definition new_table (team user : nat) (validated_data : ValidatedData.t)
    (credential : option nat) : Tbl.t :=
  Tbl.Make team user
           (ValidatedData.name validated_data)
           (ValidatedData.format validated_data)
           (ValidatedData.url_pattern validated_data)
           credential None
           (ValidatedData.deleted validated_data) ∅.

(** ** The collaborators that live outside this module *)

Section Views.

(** The names of the members of the enum
    [posthog.schema.DatabaseSerializedFieldType]; the lookup
    [DatabaseSerializedFieldType[n]] raises unless [n] is one of them. *)
Variable DatabaseSerializedFieldType : list string.

(** [posthog.warehouse.models.table.SERIALIZED_FIELD_TO_CLICKHOUSE_MAPPING],
    read at a [str] key. *)
Variable SERIALIZED_FIELD_TO_CLICKHOUSE_MAPPING : gmap string string.

(** [posthog.warehouse.models.table.CLICKHOUSE_HOGQL_MAPPING], each
    class replaced by its [__name__]. *)
Variable CLICKHOUSE_HOGQL_MAPPING : gmap string string.

(** [DataWarehouseTable.validate_column_type(key)], evaluated on the
    instance the view holds. *)
Variable validate_column_type : Tbl.t -> string -> bool.

(** [DataWarehouseTable.get_columns()]: the inferred catalog, or the
    text of the exception it raised. *)
Variable get_columns : Tbl.t -> string + gmap string column.

(** *** [TableViewSet.update_schema] *)

(** [updates.keys()] / [updates.items()] *)
Definition items (updates : json) : flow Response (list (string * json)) :=
  match updates with
  | JObj members => Continue members
  | _ => Raise AttributeError
  end.

(** The first loop: every key of [updates] is a key of [columns]. *)
Fixpoint check_keys (columns : gmap string column) (keys : list string)
  : flow Response unit :=
  match keys with
  | [] => Continue tt
  | key :: rest =>
      match columns !! key with
      | None => Return (MkResponse HTTP_400_BAD_REQUEST (Some (ColumnDoesNotExist key)))
      | Some _ => check_keys columns rest
      end
  end.

(** [DatabaseSerializedFieldType[value.upper()]] under the bare
    [except]: the type name when nothing was raised. Only a [str] has
    [.upper()]. *)
Definition parse_type (value : json) : option string :=
  match value with
  | JStr s =>
      if bool_decide (upper s ∈ DatabaseSerializedFieldType) then Some s else None
  | _ => None
  end.

(** One turn of the second loop, on the dict [columns] that the
    instance holds. *)
Definition set_type (columns : gmap string column) (key : string) (value : json)
  : flow Response (gmap string column) :=
  match parse_type value with
  | None => Return (MkResponse HTTP_400_BAD_REQUEST (Some (CanNotParseType value key)))
  | Some s =>
      match columns !! key with
      | None => Raise (KeyError key)
      | Some current_value =>
          let d := match current_value with
                   | OldStyle _ => ∅
                   | Descriptor d => d
                   end in
          match SERIALIZED_FIELD_TO_CLICKHOUSE_MAPPING !! s with
          | None => Raise (KeyError s)
          | Some ch =>
              let d := <["clickhouse" := JStr ("Nullable(" +:+ ch +:+ ")")]> d in
              match CLICKHOUSE_HOGQL_MAPPING !! ch with
              | None => Raise (KeyError ch)
              | Some h => Continue (<[key := Descriptor (<["hogql" := JStr h]> d)]> columns)
              end
          end
      end
  end.

Fixpoint set_types (columns : gmap string column) (updates : list (string * json))
  : flow Response (gmap string column) :=
  match updates with
  | [] => Continue columns
  | (key, value) :: rest =>
      flow_bind (set_type columns key value) (fun columns => set_types columns rest)
  end.

(** One turn of the third loop:
    [columns[key]["valid"] = table.validate_column_type(key)]. *)
Definition set_valid (table : Tbl.t) (key : string) : flow Response Tbl.t :=
  let valid := validate_column_type table key in
  match Tbl.columns table !! key with
  | None => Raise (KeyError key)
  | Some (OldStyle _) => Raise TypeError
  | Some (Descriptor d) =>
      Continue (Tbl.set_columns table
                  (<[key := Descriptor (<["valid" := JBool valid]> d)]> (Tbl.columns table)))
  end.

Fixpoint set_valids (table : Tbl.t) (keys : list string) : flow Response Tbl.t :=
  match keys with
  | [] => Continue table
  | key :: rest => flow_bind (set_valid table key) (fun table => set_valids table rest)
  end.

Definition update_schema (team pk : nat) (updates : json) : body Response :=
  match updates with
  | JNull => pure (Return (MkResponse HTTP_200_OK None))
  | _ =>
      table <- get_object team pk ;;
      match Tbl.external_data_source table with
      | Some _ => pure (Return (MkResponse HTTP_400_BAD_REQUEST (Some MustBeManuallyLinked)))
      | None =>
          members <- pure (items updates) ;;
          run pure (check_keys (Tbl.columns table) members.*1) ;;
          columns <- pure (set_types (Tbl.columns table) members) ;;
          let table := Tbl.set_columns table columns in
          run save pk table ;;
          table <- pure (set_valids table members.*1) ;;
          run save pk table ;;
          pure (Return (MkResponse HTTP_200_OK None))
      end
  end.

(** *** Vocabulary for the statements about [update_schema] *)

(** The requested type passes the check of the view and has a row in
    both tables: [ch] is its storage type, [h] its query-engine type. *)
Definition accepted (s ch h : string) : Prop :=
  upper s ∈ DatabaseSerializedFieldType
  /\ SERIALIZED_FIELD_TO_CLICKHOUSE_MAPPING !! s = Some ch
  /\ CLICKHOUSE_HOGQL_MAPPING !! ch = Some h.

(** An update whose requested type is a string accepted by the registry. *)
Definition valid_update (update : string * json) : Prop :=
  exists s ch h, update.2 = JStr s /\ accepted s ch h.

(** *** [TableViewSet.refresh_schema] *)

Definition refresh_schema (team pk : nat) : body Response :=
  table <- get_object team pk ;;
  match get_columns table with
  | inl msg => pure (Raise (Exception msg))
  | inr columns =>
      run save pk (Tbl.set_columns table columns) ;;
      pure (Return (MkResponse HTTP_200_OK None))
  end.

(** *** [TableViewSet.destroy] *)

Definition destroy (team pk : nat) : body Response :=
  instance <- get_object team pk ;;
  match Tbl.external_data_source instance with
  | Some _ => pure (Return (MkResponse HTTP_400_BAD_REQUEST (Some CantDeleteSourcedTable)))
  | None =>
      run soft_delete pk instance ;;
      pure (Return (MkResponse HTTP_204_NO_CONTENT None))
  end.

(** *** [TableSerializer.create] *)

(** Returns the new instance: its primary key and its row. [team] is
    [self.context["team_id"]], [user] is [self.context["request"].user]. *)
Definition create (team user : nat) (validated_data : ValidatedData.t)
  : body (nat * Tbl.t) :=
  table_name_exists <- query (table_name_exists team (ValidatedData.name validated_data)) ;;
  if (table_name_exists : bool)
  then pure (Raise (ValidationError "Table name already exists."))
  else
    credential <-
      match ValidatedData.credential validated_data with
      | Some (access_key, access_secret) =>
          c <- create_credential (Cred.Make team access_key access_secret) ;;
          pure (Continue (Some c))
      | None => pure (Continue None)
      end ;;
    pk <- query (fun db => fresh (dom (tables db))) ;;
    let table := new_table team user validated_data credential in
    match get_columns table with
    | inl err => pure (Raise (ValidationError err))
    | inr columns =>
        let table := Tbl.set_columns table columns in
        run save pk table ;;
        run delay team pk ;;
        pure (Return (pk, table))
    end.

End Views.

(** The descriptor the second loop leaves for a column. *)
Definition retyped (current_value : column) (ch h : string) : gmap string json :=
  <["hogql" := JStr h]>
    (<["clickhouse" := JStr ("Nullable(" +:+ ch +:+ ")")]>
       match current_value with OldStyle _ => ∅ | Descriptor d => d end).

(** The credential that [create] attaches: a new row when the request
    carries one. *)
Definition attached_credential (validated_data : ValidatedData.t) (db : DB) : option nat :=
  match ValidatedData.credential validated_data with
  | Some _ => Some (fresh (dom (credentials db)))
  | None => None
  end.

(** ** A worked instance *)

(** Modelled from the spec: the registry tables are declared in
    [posthog.schema] and [posthog.warehouse.models.table], outside this
    module. These are the rows of the example of the spec, in which
    "STRING" yields [Nullable(String)] on a column that was
    [Nullable(Float64)]; every type name listed has a row in both
    tables. *)
Definition spec_field_types : list string := ["STRING"; "FLOAT"].
Definition spec_clickhouse_mapping : gmap string string :=
  <["STRING" := "String"]> (<["FLOAT" := "Float64"]> ∅).
Definition spec_hogql_mapping : gmap string string :=
  <["String" := "StringDatabaseField"]> (<["Float64" := "FloatDatabaseField"]> ∅).

(** A compatibility rule that admits every column but the arrays. *)
Definition no_arrays (table : Tbl.t) (key : string) : bool :=
  match Tbl.columns table !! key with
  | Some (Descriptor d) =>
      match d !! "clickhouse" with
      | Some (JStr "Nullable(Array)") => false
      | _ => true
      end
  | _ => true
  end.

Definition amount_descriptor : gmap string json :=
  <["clickhouse" := JStr "Nullable(Float64)"]>
    (<["hogql" := JStr "FloatDatabaseField"]> (<["valid" := JBool true]> ∅)).
Definition example_columns : gmap string column :=
  <["amount" := Descriptor amount_descriptor]> (<["id" := OldStyle "Nullable(Int64)"]> ∅).

(** A source that has these two columns whatever the table holds, and one
    that cannot be read. *)
Definition steady_source (table : Tbl.t) : string + gmap string column :=
  inr example_columns.
Definition broken_source (table : Tbl.t) : string + gmap string column :=
  inl "Could not get columns".

(** Team 1 owns a manually linked table [orders] (pk 1), a table [events]
    (pk 2) that belongs to external data source 7, and a soft-deleted
    table [archive] (pk 3); team 2 owns another [orders] (pk 4). *)
Definition orders : Tbl.t :=
  Tbl.Make 1 1 "orders" "Parquet" "s3://bucket/orders/*" None None false example_columns.
Definition events : Tbl.t :=
  Tbl.Make 1 1 "events" "Parquet" "s3://bucket/events/*" None (Some 7) false example_columns.
Definition archive : Tbl.t :=
  Tbl.Make 1 1 "archive" "CSV" "s3://bucket/archive/*" None None true ∅.
Definition other_orders : Tbl.t :=
  Tbl.Make 2 5 "orders" "CSV" "s3://elsewhere/orders/*" None None false ∅.
Definition example_db : DB :=
  MkDB (<[1 := orders]> (<[2 := events]> (<[3 := archive]> (<[4 := other_orders]> ∅)))) ∅ [].

(** Two requests to create a table for team 1: one with a credential and
    the name of the soft-deleted table, one with the name of a table that
    the team still has. *)
Definition archive_request : ValidatedData.t :=
  ValidatedData.Make "archive" "Parquet" "s3://bucket/archive-v2/*" false
                     (Some ("AKIAEXAMPLE", "secret")).
Definition orders_request : ValidatedData.t :=
  ValidatedData.Make "orders" "CSV" "s3://bucket/orders-v2/*" false None.

(** What the database holds for a column of a table. *)
Definition stored_column (db : DB) (pk : nat) (key : string) : option column :=
  match tables db !! pk with
  | Some table => Tbl.columns table !! key
  | None => None
  end.

Definition spec_update_schema :=
  update_schema spec_field_types spec_clickhouse_mapping spec_hogql_mapping no_arrays.


(** ** [TableViewSet.perform_update] *)

(** [serializer.validated_data] of an update: the writable fields of
    [TableSerializer] that the request carries (under PATCH any of them
    may be missing), and the nested credential dict with the writable
    fields of [CredentialSerializer] that it carries. *)
Module UpdateData.
Record t := Make {
  name : option string;
  format : option string;
  url_pattern : option string;
  deleted : option bool;
  credential : option (option string * option string)
}.
End UpdateData.

(** [if credential_data:] - a dict is true when it has a member. *)
Definition has_members (credential_data : option (option string * option string)) : bool :=
  match credential_data with
  | Some (Some _, _) | Some (_, Some _) => true
  | Some (None, None) | None => false
  end.

(** [instance.credential] followed by an attribute read: the row behind
    the foreign key. With no credential the attribute read is made on
    [None]; a key without a row is the ORM's [DoesNotExist]. *)
Definition load_credential {R} (fk : option nat) : view R (nat * Cred.t) :=
  fun db =>
    match fk with
    | None => (Raise AttributeError, db)
    | Some c =>
        match credentials db !! c with
        | Some row => (Continue (c, row), db)
        | None =>
            (Raise (Exception "DataWarehouseCredential matching query does not exist."), db)
        end
    end.

(** [credential.save()] *)
Definition save_credential {R} (c : nat) (row : Cred.t) : view R unit :=
  fun db => (Continue tt, MkDB (tables db) (<[c := row]> (credentials db)) (tasks db)).

(** [credential_data.get(k, current)] on both members. *)
Definition merge_credential (row : Cred.t) (access_key access_secret : option string) : Cred.t :=
  Cred.Make (Cred.team_id row)
            (default (Cred.access_key row) access_key)
            (default (Cred.access_secret row) access_secret).

(** [for attr, value in validated_data.items(): setattr(instance, attr, value)] *)
Definition set_attrs (instance : Tbl.t) (validated_data : UpdateData.t) : Tbl.t :=
  Tbl.Make (Tbl.team_id instance) (Tbl.created_by instance)
           (default (Tbl.name instance) (UpdateData.name validated_data))
           (default (Tbl.format instance) (UpdateData.format validated_data))
           (default (Tbl.url_pattern instance) (UpdateData.url_pattern validated_data))
           (Tbl.credential instance) (Tbl.external_data_source instance)
           (default (Tbl.deleted instance) (UpdateData.deleted validated_data))
           (Tbl.columns instance).

(** [instance] is [serializer.instance], loaded at [pk]. *)
Definition perform_update (pk : nat) (instance : Tbl.t) (validated_data : UpdateData.t)
  : body unit :=
  run (if has_members (UpdateData.credential validated_data)
       then
         loaded <- load_credential (Tbl.credential instance) ;;
         let credential :=
           match UpdateData.credential validated_data with
           | Some (access_key, access_secret) =>
               merge_credential loaded.2 access_key access_secret
           | None => loaded.2
           end in
         save_credential loaded.1 credential
       else pure (Continue tt)) ;;
  run save pk (set_attrs instance validated_data) ;;
  pure (Return tt).

(** ** The two [get_columns] of the serializers *)

Section Serializers.

(** The types this module only passes along: the query engine's
    database, a set of field definitions, and the facets of a serialized
    field. *)
Variables Database FieldSet FieldType FieldTree TableRef Chain : Type.

(** [posthog.hogql.database.database.SerializedField] *)
Record SerializedField := MkSerializedField {
  sf_key : string;
  sf_name : string;
  sf_type : FieldType;
  sf_schema_valid : bool;
  sf_fields : FieldTree;
  sf_table : TableRef;
  sf_chain : Chain
}.

(** [self.context]: the members the two methods read. *)
Record Context := MkContext {
  ctx_database : option Database;
  ctx_team_id : option nat
}.

(** The collaborators, taken where they return: [create_hogql_database],
    [database.has_table], [database.get_table(name).fields],
    [table.hogql_definition().fields], and [serialize_fields] applied to
    the fields, the database and team of the [HogQLContext], the table
    (for [table.name_chain]) and the [table.columns] argument when it is
    given. *)
Variable create_hogql_database : nat -> Database.
Variable has_table : Database -> string -> bool.
Variable get_table_fields : Database -> string -> FieldSet.
Variable hogql_definition_fields : Tbl.t -> FieldSet.
Variable serialize_fields :
  FieldSet -> Database -> option nat -> Tbl.t -> option (gmap string column)
  -> list SerializedField.

(** The list comprehension of both methods. *)
Definition rekey (field : SerializedField) : SerializedField :=
  MkSerializedField (sf_name field) (sf_name field) (sf_type field)
                    (sf_schema_valid field) (sf_fields field) (sf_table field)
                    (sf_chain field).

(** [self.context["team_id"]] *)
Definition context_team_id {R} (context : Context) : flow R nat :=
  match ctx_team_id context with
  | Some team => Continue team
  | None => Raise (KeyError "team_id")
  end.

(** [self.context.get("database", None)], made with
    [create_hogql_database] when there is none. *)
Definition context_database {R} (context : Context) : flow R Database :=
  match ctx_database context with
  | Some database => Continue database
  | None => flow_bind (context_team_id context)
                      (fun team => Continue (create_hogql_database team))
  end.

(** [TableSerializer.get_columns] *)
Definition TableSerializer_get_columns (context : Context) (table : Tbl.t)
  : flow (list SerializedField) Empty_set :=
  flow_bind (context_database context) (fun database =>
  let fields :=
    if has_table database (Tbl.name table)
    then get_table_fields database (Tbl.name table)
    else hogql_definition_fields table in
  flow_bind (context_team_id context) (fun team =>
  Return (rekey <$> serialize_fields fields database (Some team) table
                                      (Some (Tbl.columns table))))).

(** [SimpleTableSerializer.get_columns] *)
Definition SimpleTableSerializer_get_columns (context : Context) (table : Tbl.t)
  : flow (list SerializedField) Empty_set :=
  let team_id := ctx_team_id context in
  flow_bind (context_database context) (fun database =>
  Return (rekey <$> serialize_fields (hogql_definition_fields table) database team_id
                                      table None)).

End Serializers.

(** Vocabulary for the case of a requested type: ASCII text, and the
    same text in lower case. Two ASCII strings differ in case only when
    they have the same lower-case form. *)
Definition is_ascii (s : string) : bool :=
  forallb (fun c => Nat.ltb (nat_of_ascii c) 128) (list_ascii_of_string s).

Definition lower_ascii (c : ascii) : ascii :=
  let n := nat_of_ascii c in
  if Nat.leb 65 n && Nat.leb n 90 then ascii_of_nat (n + 32) else c.

Fixpoint lower (s : string) : string :=
  match s with
  | EmptyString => EmptyString
  | String c rest => String (lower_ascii c) (lower rest)
  end.

(** The members of a catalog entry, none for the "old" style. *)
Definition members_of (c : column) : gmap string json :=
  match c with
  | OldStyle _ => ∅
  | Descriptor d => d
  end.

(** A database in which [orders] and [events] share credential 5. *)
Definition shared_credential : Cred.t := Cred.Make 1 "AKIAOLD" "old-secret".
Definition orders_with_credential : Tbl.t :=
  Tbl.Make 1 1 "orders" "Parquet" "s3://bucket/orders/*" (Some 5) None false example_columns.
Definition events_with_credential : Tbl.t :=
  Tbl.Make 1 1 "events" "Parquet" "s3://bucket/events/*" (Some 5) (Some 7) false example_columns.
Definition vault_db : DB :=
  MkDB (<[1 := orders_with_credential]> (<[2 := events_with_credential]> ∅))
       (<[5 := shared_credential]> ∅) [].

(** Updates used below: a new secret, a new name, a deletion. *)
Definition rotate_secret : UpdateData.t :=
  UpdateData.Make None None None None (Some (None, Some "new-secret")).
Definition rename_to_events : UpdateData.t :=
  UpdateData.Make (Some "events") None None None None.
Definition mark_deleted : UpdateData.t :=
  UpdateData.Make None None None (Some true) None.

(** The table that [archive_request] creates on [example_db] from the
    steady source, and a request for a table that is born deleted. *)
Definition archive_pk : nat := fresh (dom (tables example_db)).
Definition archive_table : Tbl.t :=
  Tbl.set_columns
    (new_table 1 1 archive_request (Some (fresh (dom (credentials example_db)))))
    example_columns.
Definition archive_db : DB := (create steady_source 1 1 archive_request example_db).2.
Definition staging_request : ValidatedData.t :=
  ValidatedData.Make "staging" "CSV" "s3://bucket/staging/*" true None.
Definition staging_table : Tbl.t :=
  Tbl.set_columns (new_table 1 1 staging_request None) example_columns.
Definition staging_db : DB := (create steady_source 1 1 staging_request example_db).2.

(** A catalog whose column [payload] has a nested "fields" member. *)
Definition nested_descriptor : gmap string json :=
  <["clickhouse" := JStr "Nullable(Float64)"]>
    (<["hogql" := JStr "FloatDatabaseField"]>
       (<["fields" := JObj [("inner", JStr "Nullable(String)")]]> ∅)).
Definition nested_table : Tbl.t :=
  Tbl.Make 1 1 "nested" "Parquet" "s3://bucket/nested/*" None None false
           (<["payload" := Descriptor nested_descriptor]> ∅).
Definition nested_db : DB := MkDB (<[1 := nested_table]> ∅) ∅ [].

(** * Properties *)

Example upper_mixed_case : upper "String" = "STRING".
Proof. reflexivity. Qed.

Example upper_keeps_other_characters : upper "lazy_table-1" = "LAZY_TABLE-1".
Proof. reflexivity. Qed.

Example update_amount_to_string :
  (spec_update_schema 1 1 (JObj [("amount", JStr "STRING")]) example_db).1
  = Return (MkResponse 200 None).
Proof. vm_compute. reflexivity. Qed.

(** A column in the "old" style becomes a dict. *)
Example update_old_style_id :
  stored_column (spec_update_schema 1 1 (JObj [("id", JStr "FLOAT")]) example_db).2 1 "id"
  = Some (Descriptor (<["clickhouse" := JStr "Nullable(Float64)"]>
                        (<["hogql" := JStr "FloatDatabaseField"]>
                           (<["valid" := JBool true]> ∅)))).
Proof. vm_compute. reflexivity. Qed.

(** A type that is not a string, or not a type name, is answered with a
    400 after the valid update before it was applied to the instance;
    the database does not see that update. *)
Example update_then_unknown_type :
  spec_update_schema 1 1 (JObj [("id", JStr "FLOAT"); ("amount", JStr "another_type")])
                     example_db
  = (Return (MkResponse 400 (Some (CanNotParseType (JStr "another_type") "amount"))),
     example_db).
Proof. vm_compute. reflexivity. Qed.

Example update_with_a_list :
  spec_update_schema 1 1 (JArr [JStr "amount"]) example_db = (Raise AttributeError, example_db).
Proof. vm_compute. reflexivity. Qed.

(** ** Rows and lookups *)

Lemma lookup_object_Some team pk db table :
  lookup_object team pk db = Some table ->
  tables db !! pk = Some table /\ Tbl.team_id table = team /\ Tbl.deleted table = false.
Proof.
  unfold lookup_object. destruct (tables db !! pk) as [t|]; [|discriminate].
  destruct (bool_decide (Tbl.team_id t = team)) eqn:Hteam; simpl; [|discriminate].
  destruct (Tbl.deleted t) eqn:Hdel; simpl; [discriminate|].
  intros [= <-]. apply bool_decide_eq_true in Hteam. auto.
Qed.

Lemma lookup_object_stored team pk db table :
  tables db !! pk = Some table ->
  Tbl.team_id table = team -> Tbl.deleted table = false ->
  lookup_object team pk db = Some table.
Proof.
  intros Hrow Hteam Hdel. unfold lookup_object. rewrite Hrow, Hdel.
  rewrite bool_decide_eq_true_2 by exact Hteam. reflexivity.
Qed.

Lemma lookup_object_miss team pk db :
  (tables db !! pk = None
   \/ exists table, tables db !! pk = Some table
                    /\ (Tbl.team_id table <> team \/ Tbl.deleted table = true)) ->
  lookup_object team pk db = None.
Proof.
  unfold lookup_object. intros [->|(table & -> & [Hteam|Hdel])]; [reflexivity| |].
  - rewrite bool_decide_eq_false_2 by exact Hteam. reflexivity.
  - rewrite Hdel, andb_false_r. reflexivity.
Qed.

Lemma lookup_object_set_columns team pk tbls creds queue table columns :
  Tbl.team_id table = team -> Tbl.deleted table = false ->
  lookup_object team pk (MkDB (<[pk := Tbl.set_columns table columns]> tbls) creds queue)
  = Some (Tbl.set_columns table columns).
Proof.
  intros Hteam Hdel. apply lookup_object_stored; simpl; auto.
  apply lookup_insert_eq.
Qed.

Lemma set_columns_set_columns table c1 c2 :
  Tbl.set_columns (Tbl.set_columns table c1) c2 = Tbl.set_columns table c2.
Proof. reflexivity. Qed.

Lemma set_columns_same table : Tbl.set_columns table (Tbl.columns table) = table.
Proof. destruct table; reflexivity. Qed.

Lemma table_name_exists_true team n db :
  table_name_exists team n db = true <->
  exists pk table, tables db !! pk = Some table /\ Tbl.deleted table = false
                   /\ Tbl.team_id table = team /\ Tbl.name table = n.
Proof.
  unfold table_name_exists. rewrite existsb_exists. split.
  - intros [[pk table] [Hin Hrow]]. simpl in Hrow.
    apply list_elem_of_In, elem_of_map_to_list in Hin.
    apply andb_true_iff in Hrow as [Hrow Hname].
    apply andb_true_iff in Hrow as [Hdel Hteam].
    apply negb_true_iff in Hdel.
    apply bool_decide_eq_true in Hname, Hteam.
    exists pk, table. auto.
  - intros (pk & table & Hrow & Hdel & Hteam & Hname).
    exists (pk, table). split.
    + apply list_elem_of_In, elem_of_map_to_list. exact Hrow.
    + simpl. rewrite Hdel. simpl.
      rewrite !bool_decide_eq_true_2 by assumption. reflexivity.
Qed.

Lemma table_name_exists_false team n db :
  (forall pk table, tables db !! pk = Some table -> Tbl.name table = n ->
                    Tbl.deleted table = true \/ Tbl.team_id table <> team) ->
  table_name_exists team n db = false.
Proof.
  intros Hfree. apply not_true_is_false. intros Hex.
  apply table_name_exists_true in Hex as (pk & table & Hrow & Hdel & Hteam & Hname).
  destruct (Hfree pk table Hrow Hname) as [Hd|Ht]; congruence.
Qed.

(** ** [update_schema], statement by statement *)

Section UpdateSchema.

Context (DatabaseSerializedFieldType : list string)
        (SERIALIZED_FIELD_TO_CLICKHOUSE_MAPPING CLICKHOUSE_HOGQL_MAPPING : gmap string string)
        (validate_column_type : Tbl.t -> string -> bool).

Local Abbreviation parse_type' := (parse_type DatabaseSerializedFieldType).
Local Abbreviation set_type' :=
  (set_type DatabaseSerializedFieldType SERIALIZED_FIELD_TO_CLICKHOUSE_MAPPING
            CLICKHOUSE_HOGQL_MAPPING).
Local Abbreviation set_types' :=
  (set_types DatabaseSerializedFieldType SERIALIZED_FIELD_TO_CLICKHOUSE_MAPPING
             CLICKHOUSE_HOGQL_MAPPING).
Local Abbreviation set_valid' := (set_valid validate_column_type).
Local Abbreviation set_valids' := (set_valids validate_column_type).
Local Abbreviation accepted' :=
  (accepted DatabaseSerializedFieldType SERIALIZED_FIELD_TO_CLICKHOUSE_MAPPING
            CLICKHOUSE_HOGQL_MAPPING).
Local Abbreviation valid_update' :=
  (valid_update DatabaseSerializedFieldType SERIALIZED_FIELD_TO_CLICKHOUSE_MAPPING
                CLICKHOUSE_HOGQL_MAPPING).
Local Abbreviation update_schema' :=
  (update_schema DatabaseSerializedFieldType SERIALIZED_FIELD_TO_CLICKHOUSE_MAPPING
                 CLICKHOUSE_HOGQL_MAPPING validate_column_type).

(** The body of the view once the table is loaded and is not sourced:
    nothing is saved unless both first loops run to their end. *)
Lemma update_schema_unfold team pk members db table :
  lookup_object team pk db = Some table ->
  Tbl.external_data_source table = None ->
  update_schema' team pk (JObj members) db =
    match check_keys (Tbl.columns table) members.*1 with
    | Continue _ =>
        match set_types' (Tbl.columns table) members with
        | Continue columns =>
            let typed := Tbl.set_columns table columns in
            let db1 := MkDB (<[pk := typed]> (tables db)) (credentials db) (tasks db) in
            match set_valids' typed members.*1 with
            | Continue final =>
                (Return (MkResponse 200 None),
                 MkDB (<[pk := final]> (tables db1)) (credentials db) (tasks db))
            | Return r => (Return r, db1)
            | Raise e => (Raise e, db1)
            end
        | Return r => (Return r, db)
        | Raise e => (Raise e, db)
        end
    | Return r => (Return r, db)
    | Raise e => (Raise e, db)
    end.
Proof.
  intros Hget Hsrc. unfold update_schema, bind, get_object, pure, save.
  rewrite Hget, Hsrc. reflexivity.
Qed.

Lemma check_keys_present (columns : gmap string column) keys :
  (forall key, key ∈ keys -> is_Some (columns !! key)) ->
  check_keys columns keys = Continue tt.
Proof.
  induction keys as [|key rest IH]; intros Hall; simpl; [reflexivity|].
  destruct (Hall key) as [c Hc]; [left|]. rewrite Hc.
  apply IH. intros k Hk. apply Hall. right. exact Hk.
Qed.

Lemma check_keys_absent (columns : gmap string column) keys :
  (exists key, key ∈ keys /\ columns !! key = None) ->
  exists key, key ∈ keys /\ columns !! key = None
    /\ check_keys columns keys
       = Return (MkResponse 400 (Some (ColumnDoesNotExist key))).
Proof.
  induction keys as [|key rest IH]; intros (k & Hk & Hnone).
  - inversion Hk.
  - simpl. destruct (columns !! key) as [c|] eqn:Hkey.
    + assert (Hrest : k ∈ rest).
      { apply elem_of_cons in Hk as [->|Hk]; [congruence | exact Hk]. }
      destruct IH as (k' & Hk' & Hnone' & Heq).
      { exists k. auto. }
      exists k'. repeat split; auto. right. exact Hk'.
    + exists key. repeat split; auto. left.
Qed.

Lemma parse_type_accepted s :
  upper s ∈ DatabaseSerializedFieldType -> parse_type' (JStr s) = Some s.
Proof. intros Hin. simpl. rewrite bool_decide_eq_true_2 by exact Hin. reflexivity. Qed.

Lemma set_type_accepted (columns : gmap string column) key current_value s ch h :
  columns !! key = Some current_value ->
  accepted' s ch h ->
  set_type' columns key (JStr s)
  = Continue (<[key := Descriptor (retyped current_value ch h)]> columns).
Proof.
  intros Hkey (Hname & Hch & Hh). unfold set_type.
  rewrite parse_type_accepted by exact Hname.
  rewrite Hkey, Hch, Hh. destruct current_value; reflexivity.
Qed.

Lemma set_valid_descriptor table key d :
  Tbl.columns table !! key = Some (Descriptor d) ->
  set_valid' table key
  = Continue (Tbl.set_columns table
                (<[key := Descriptor (<["valid" := JBool (validate_column_type table key)]> d)]>
                   (Tbl.columns table))).
Proof. intros Hkey. unfold set_valid. rewrite Hkey. reflexivity. Qed.

(** Retyping a column that already went through both loops with the
    same type changes nothing. *)
Lemma retyped_again current_value ch h valid :
  retyped (Descriptor (<["valid" := valid]> (retyped current_value ch h))) ch h
  = <["valid" := valid]> (retyped current_value ch h).
Proof.
  unfold retyped. apply map_eq. intros i.
  rewrite !lookup_insert. repeat case_decide; subst; congruence.
Qed.

(** A single accepted update: the two rows that are saved. *)
Lemma update_schema_single team pk db table key current_value s ch h :
  lookup_object team pk db = Some table ->
  Tbl.external_data_source table = None ->
  Tbl.columns table !! key = Some current_value ->
  accepted' s ch h ->
  let d := retyped current_value ch h in
  let typed := Tbl.set_columns table (<[key := Descriptor d]> (Tbl.columns table)) in
  let valid := validate_column_type typed key in
  let final :=
    Tbl.set_columns table (<[key := Descriptor (<["valid" := JBool valid]> d)]> (Tbl.columns table)) in
  set_types' (Tbl.columns table) [(key, JStr s)] = Continue (Tbl.columns typed)
  /\ set_valids' typed [key] = Continue final
  /\ update_schema' team pk (JObj [(key, JStr s)]) db
     = (Return (MkResponse 200 None),
        MkDB (<[pk := final]> (<[pk := typed]> (tables db))) (credentials db) (tasks db)).
Proof.
  intros Hget Hsrc Hkey Hacc d typed valid final.
  assert (Hloop2 : set_types' (Tbl.columns table) [(key, JStr s)]
                   = Continue (Tbl.columns typed)).
  { simpl. rewrite (set_type_accepted _ _ current_value s ch h) by assumption.
    reflexivity. }
  assert (Hloop3 : set_valids' typed [key] = Continue final).
  { simpl. rewrite (set_valid_descriptor typed key d).
    - simpl. unfold final. rewrite insert_insert_eq. reflexivity.
    - apply lookup_insert_eq. }
  repeat split; try assumption.
  rewrite (update_schema_unfold _ _ _ _ table) by assumption.
  change ([(key, JStr s)].*1) with [key].
  rewrite check_keys_present.
  - rewrite Hloop2. change (Tbl.set_columns table (Tbl.columns typed)) with typed.
    cbv zeta. rewrite Hloop3. reflexivity.
  - intros k Hk. apply list_elem_of_singleton in Hk as ->. eauto.
Qed.

Lemma set_types_app (columns : gmap string column) pre rest :
  set_types' columns (pre ++ rest)
  = flow_bind (set_types' columns pre) (fun columns => set_types' columns rest).
Proof.
  revert columns. induction pre as [|[key value] pre IH]; intros columns; simpl.
  - reflexivity.
  - destruct (set_type' columns key value); simpl; auto.
Qed.

(** Valid updates on known columns go through the second loop, which
    keeps the keys of the dict. *)
Lemma set_types_valid (columns : gmap string column) updates :
  Forall valid_update' updates ->
  (forall key, key ∈ updates.*1 -> is_Some (columns !! key)) ->
  exists columns',
    set_types' columns updates = Continue columns'
    /\ forall key, is_Some (columns !! key) -> is_Some (columns' !! key).
Proof.
  intros Hvalid. revert columns.
  induction Hvalid as [|[key value] rest (s & ch & h & Hval & Hacc) _ IH];
    intros columns Hkeys.
  - exists columns. split; [reflexivity | auto].
  - simpl in Hval. subst value.
    destruct (Hkeys key) as [current_value Hcur]; [left|].
    simpl. rewrite (set_type_accepted _ _ current_value s ch h) by assumption.
    simpl.
    assert (Hkept : forall k, is_Some (columns !! k) ->
              is_Some (<[key := Descriptor (retyped current_value ch h)]> columns !! k)).
    { intros k Hk. rewrite lookup_insert. case_decide; eauto. }
    destruct (IH (<[key := Descriptor (retyped current_value ch h)]> columns))
      as (columns' & Hrun & Hkeep).
    { intros k Hk. apply Hkept, Hkeys. right. exact Hk. }
    exists columns'. split; [exact Hrun | auto].
Qed.

(** Whatever stops the second loop, the database is as it was. *)
Lemma update_schema_stopped team pk db table pre key value post :
  lookup_object team pk db = Some table ->
  Tbl.external_data_source table = None ->
  (forall k, k ∈ (pre ++ (key, value) :: post).*1 -> is_Some (Tbl.columns table !! k)) ->
  Forall valid_update' pre ->
  exists columns,
    is_Some (columns !! key)
    /\ update_schema' team pk (JObj (pre ++ (key, value) :: post)) db
       = match set_type' columns key value with
         | Continue _ => update_schema' team pk (JObj (pre ++ (key, value) :: post)) db
         | Return r => (Return r, db)
         | Raise e => (Raise e, db)
         end.
Proof.
  intros Hget Hsrc Hkeys Hvalid.
  destruct (set_types_valid (Tbl.columns table) pre Hvalid) as (columns & Hrun & Hkeep).
  { intros k Hk. apply Hkeys. rewrite fmap_app. apply elem_of_app. left. exact Hk. }
  exists columns. split.
  { apply Hkeep, Hkeys. rewrite fmap_app. apply elem_of_app. right. left. }
  destruct (set_type' columns key value) as [c|r|e] eqn:Hstep; [reflexivity| |].
  all: rewrite (update_schema_unfold _ _ _ _ table) by assumption.
  all: rewrite check_keys_present by exact Hkeys.
  all: rewrite set_types_app, Hrun; simpl; rewrite Hstep; reflexivity.
Qed.

(** A requested type that the check of the view rejects, after any
    number of valid updates: a 400 response, nothing saved. *)
Lemma update_schema_unknown_type team pk db table pre key value post :
  lookup_object team pk db = Some table ->
  Tbl.external_data_source table = None ->
  (forall k, k ∈ (pre ++ (key, value) :: post).*1 -> is_Some (Tbl.columns table !! k)) ->
  Forall valid_update' pre ->
  parse_type' value = None ->
  update_schema' team pk (JObj (pre ++ (key, value) :: post)) db
  = (Return (MkResponse 400 (Some (CanNotParseType value key))), db).
Proof.
  intros Hget Hsrc Hkeys Hvalid Hparse.
  destruct (update_schema_stopped team pk db table pre key value post)
    as (columns & _ & Heq); try assumption.
  rewrite Heq. unfold set_type. rewrite Hparse. reflexivity.
Qed.

(** ** The schema mutator *)

(** C1. On a table that is not linked to an external data source, an
    update [{key: s}] of a catalog column with a type [s] that the
    registry accepts succeeds. The second loop sets "clickhouse" to
    [Nullable(ch)], where [ch] is the storage type the first table
    gives for [s], and "hogql" to what the second table gives for [ch],
    and that row is saved; the third loop then stores under "valid" the
    verdict of [validate_column_type] on that row, and the row is saved
    again. With the column [amount] and [s = "STRING"], mapped to
    [String], the native type becomes [Nullable(String)]. *)
Theorem update_schema_sets_types team pk db table key current_value s ch h :
  lookup_object team pk db = Some table ->
  Tbl.external_data_source table = None ->
  Tbl.columns table !! key = Some current_value ->
  accepted' s ch h ->
  exists d typed final db',
    typed = Tbl.set_columns table (<[key := Descriptor d]> (Tbl.columns table))
    /\ set_types' (Tbl.columns table) [(key, JStr s)] = Continue (Tbl.columns typed)
    /\ d !! "clickhouse" = Some (JStr ("Nullable(" +:+ ch +:+ ")"))
    /\ d !! "hogql" = Some (JStr h)
    /\ set_valids' typed [key] = Continue final
    /\ Tbl.columns final !! key
       = Some (Descriptor (<["valid" := JBool (validate_column_type typed key)]> d))
    /\ update_schema' team pk (JObj [(key, JStr s)]) db
       = (Return (MkResponse 200 None), db')
    /\ tables db' = <[pk := final]> (<[pk := typed]> (tables db))
    /\ stored_column db' pk key
       = Some (Descriptor (<["valid" := JBool (validate_column_type typed key)]> d)).
Proof.
  intros Hget Hsrc Hkey Hacc.
  destruct (update_schema_single team pk db table key current_value s ch h)
    as (Hloop2 & Hloop3 & Hrun); try assumption.
  eexists _, _, _, _. split; [reflexivity|].
  split; [exact Hloop2|].
  split; [unfold retyped; rewrite lookup_insert_ne by done; apply lookup_insert_eq|].
  split; [apply lookup_insert_eq|].
  split; [exact Hloop3|].
  split; [apply lookup_insert_eq|].
  split; [exact Hrun|].
  split; [reflexivity|].
  unfold stored_column. simpl. rewrite lookup_insert_eq. apply lookup_insert_eq.
Qed.

(** C7. Under the conditions of C1, and with a compatibility predicate
    whose verdict on a column is a function of the table and the types
    of its columns (recording a verdict on the column does not change
    the verdict), a second [update_schema] with the same [{key: s}]
    succeeds and leaves the database, hence the stored descriptor of
    [key], as the first one left it. *)
Theorem update_schema_idempotent team pk db table key current_value s ch h :
  lookup_object team pk db = Some table ->
  Tbl.external_data_source table = None ->
  Tbl.columns table !! key = Some current_value ->
  accepted' s ch h ->
  (forall t d b,
      Tbl.columns t !! key = Some (Descriptor d) ->
      validate_column_type
        (Tbl.set_columns t (<[key := Descriptor (<["valid" := JBool b]> d)]> (Tbl.columns t)))
        key
      = validate_column_type t key) ->
  exists db1 db2,
    update_schema' team pk (JObj [(key, JStr s)]) db = (Return (MkResponse 200 None), db1)
    /\ update_schema' team pk (JObj [(key, JStr s)]) db1 = (Return (MkResponse 200 None), db2)
    /\ is_Some (stored_column db1 pk key)
    /\ stored_column db2 pk key = stored_column db1 pk key
    /\ db2 = db1.
Proof.
  intros Hget Hsrc Hkey Hacc Hverdict.
  destruct (lookup_object_Some _ _ _ _ Hget) as (_ & Hteam & Hdel).
  destruct (update_schema_single team pk db table key current_value s ch h)
    as (_ & _ & Hrun1); try assumption.
  cbv zeta in Hrun1.
  remember (retyped current_value ch h) as d eqn:Hd.
  remember (Tbl.set_columns table (<[key := Descriptor d]> (Tbl.columns table)))
    as typed eqn:Htyped.
  remember (validate_column_type typed key) as valid eqn:Hvalid.
  remember (Tbl.set_columns table
              (<[key := Descriptor (<["valid" := JBool valid]> d)]> (Tbl.columns table)))
    as final eqn:Hfinal.
  assert (Hstored : Tbl.columns final !! key
                    = Some (Descriptor (<["valid" := JBool valid]> d))).
  { subst final. apply lookup_insert_eq. }
  assert (Hsame : Tbl.set_columns final
                    (<[key := Descriptor (<["valid" := JBool valid]> d)]> (Tbl.columns final))
                  = final).
  { rewrite insert_id by exact Hstored. apply set_columns_same. }
  assert (Hagain : validate_column_type final key = valid).
  { replace final with
      (Tbl.set_columns typed
         (<[key := Descriptor (<["valid" := JBool valid]> d)]> (Tbl.columns typed))).
    - rewrite Hvalid. apply Hverdict. subst typed. apply lookup_insert_eq.
    - subst final typed. simpl. rewrite insert_insert_eq. reflexivity. }
  destruct (update_schema_single team pk
              (MkDB (<[pk := final]> (<[pk := typed]> (tables db))) (credentials db) (tasks db))
              final key (Descriptor (<["valid" := JBool valid]> d)) s ch h)
    as (_ & _ & Hrun2); try assumption.
  { subst final. apply lookup_object_set_columns; assumption. }
  { subst final. exact Hsrc. }
  cbv zeta in Hrun2.
  replace (retyped (Descriptor (<["valid" := JBool valid]> d)) ch h)
    with (<["valid" := JBool valid]> d) in Hrun2
    by (subst d; symmetry; apply retyped_again).
  rewrite Hsame, Hagain in Hrun2.
  rewrite (insert_insert_eq d), Hsame in Hrun2.
  eexists _, (MkDB (<[pk := final]> (<[pk := typed]> (tables db))) (credentials db) (tasks db)).
  split; [exact Hrun1|].
  split; [rewrite Hrun2; simpl; rewrite !insert_insert_eq; reflexivity|].
  split; [|split; reflexivity].
  unfold stored_column. simpl. rewrite lookup_insert_eq, Hstored. eauto.
Qed.

(** C10. Without an "updates" payload the view answers 200 at once:
    no table is loaded, none of the checks runs, and the database is
    untouched, whatever the primary key designates. *)
Theorem update_schema_without_updates team pk db :
  update_schema DatabaseSerializedFieldType SERIALIZED_FIELD_TO_CLICKHOUSE_MAPPING
                CLICKHOUSE_HOGQL_MAPPING validate_column_type team pk JNull db
  = (Return (MkResponse HTTP_200_OK None), db)
  /\ (lookup_object team pk db = None ->
      update_schema DatabaseSerializedFieldType SERIALIZED_FIELD_TO_CLICKHOUSE_MAPPING
                    CLICKHOUSE_HOGQL_MAPPING validate_column_type team pk (JObj []) db
      = (Raise Http404, db)).
Proof.
  split; [reflexivity|].
  intros Hmissing. unfold update_schema, bind, get_object. rewrite Hmissing. reflexivity.
Qed.

(** C2, amended. On a table linked to an external data source, every
    payload that is present gets the 400 response "The table must be a
    manually linked table", and no payload at all changes the
    database. *)
Theorem update_schema_sourced team pk db table updates :
  lookup_object team pk db = Some table ->
  is_Some (Tbl.external_data_source table) ->
  (updates <> JNull ->
   update_schema' team pk updates db
   = (Return (MkResponse 400 (Some MustBeManuallyLinked)), db))
  /\ (update_schema' team pk updates db).2 = db.
Proof.
  intros Hget [source Hsrc].
  assert (Hpresent : updates <> JNull ->
            update_schema' team pk updates db
            = (Return (MkResponse 400 (Some MustBeManuallyLinked)), db)).
  { intros Hupd. destruct updates; try congruence.
    all: unfold update_schema, bind, get_object, pure; rewrite Hget, Hsrc; reflexivity. }
  split; [exact Hpresent|].
  destruct updates; try (rewrite Hpresent by discriminate); reflexivity.
Qed.

(** C5. On a table that is not linked to an external data source, an
    updates map with a key that the catalog does not have gets the 400
    response "Column ... does not exist on table", naming such a key,
    and the database is unchanged. *)
Theorem update_schema_unknown_column team pk db table members :
  lookup_object team pk db = Some table ->
  Tbl.external_data_source table = None ->
  (exists key, key ∈ members.*1 /\ Tbl.columns table !! key = None) ->
  exists key,
    key ∈ members.*1 /\ Tbl.columns table !! key = None
    /\ update_schema' team pk (JObj members) db
       = (Return (MkResponse 400 (Some (ColumnDoesNotExist key))), db).
Proof.
  intros Hget Hsrc Hmissing.
  destruct (check_keys_absent (Tbl.columns table) members.*1 Hmissing)
    as (key & Hin & Hnone & Hcheck).
  exists key. repeat split; try assumption.
  rewrite (update_schema_unfold _ _ _ _ table) by assumption.
  rewrite Hcheck. reflexivity.
Qed.

(** C4, what the view does. A requested type whose upper-case form is a
    name of [DatabaseSerializedFieldType] passes the check; when the
    storage-type table has no row for the type as it was written, the
    lookup that follows raises [KeyError], after any number of valid
    updates. Nothing is saved, but no 400 response is made. *)
Theorem update_schema_unmapped_type_raises team pk db table pre key s post :
  lookup_object team pk db = Some table ->
  Tbl.external_data_source table = None ->
  (forall k, k ∈ (pre ++ (key, JStr s) :: post).*1 -> is_Some (Tbl.columns table !! k)) ->
  Forall valid_update' pre ->
  upper s ∈ DatabaseSerializedFieldType ->
  SERIALIZED_FIELD_TO_CLICKHOUSE_MAPPING !! s = None ->
  update_schema' team pk (JObj (pre ++ (key, JStr s) :: post)) db
  = (Raise (KeyError s), db).
Proof.
  intros Hget Hsrc Hkeys Hvalid Hname Hrow.
  destruct (update_schema_stopped team pk db table pre key (JStr s) post)
    as (columns & [current_value Hcur] & Heq); try assumption.
  rewrite Heq. unfold set_type.
  rewrite parse_type_accepted by exact Hname. rewrite Hcur, Hrow. reflexivity.
Qed.

End UpdateSchema.

(** ** The lifecycle manager *)

Section Lifecycle.

Context (get_columns : Tbl.t -> string + gmap string column).

Local Abbreviation refresh_schema' := (refresh_schema get_columns).
Local Abbreviation create' := (create get_columns).

(** C8. When the synchronizer returns a catalog, [refresh_schema] stores
    exactly that catalog in place of the old one. When the synchronizer
    reads the source and not the stored catalog, a second refresh
    leaves the database as the first one left it. *)
Theorem refresh_schema_overwrites team pk db table columns :
  lookup_object team pk db = Some table ->
  get_columns table = inr columns ->
  (forall t c, get_columns (Tbl.set_columns t c) = get_columns t) ->
  exists db1,
    refresh_schema' team pk db = (Return (MkResponse 200 None), db1)
    /\ tables db1 = <[pk := Tbl.set_columns table columns]> (tables db)
    /\ (forall key, stored_column db1 pk key = columns !! key)
    /\ refresh_schema' team pk db1 = (Return (MkResponse 200 None), db1).
Proof.
  intros Hget Hsync Hsource.
  destruct (lookup_object_Some _ _ _ _ Hget) as (_ & Hteam & Hdel).
  eexists. split.
  { unfold refresh_schema, bind, get_object, save, pure.
    rewrite Hget, Hsync. reflexivity. }
  split; [reflexivity|].
  split.
  { intros key. unfold stored_column. simpl. rewrite lookup_insert_eq. reflexivity. }
  unfold refresh_schema, bind, get_object, save, pure.
  rewrite lookup_object_set_columns by assumption.
  rewrite Hsource, Hsync. simpl. rewrite insert_insert_eq. reflexivity.
Qed.

(** C9. [destroy] on a table linked to an external data source answers
    400 "Can't delete a sourced table" and leaves the database as it
    was: the row is there with the catalog and the [deleted] flag it was
    loaded with, and the views still load it. On any other table it
    answers 204 and the row is stored with [deleted] set to true, so
    that no view loads it any more; its catalog and its other fields are
    untouched, every other row is as it was, and no row has left the
    database. *)
Theorem destroy_sourced_or_soft_delete team pk db table :
  lookup_object team pk db = Some table ->
  (is_Some (Tbl.external_data_source table) ->
   destroy team pk db = (Return (MkResponse 400 (Some CantDeleteSourcedTable)), db)
   /\ tables (destroy team pk db).2 !! pk = Some table
   /\ (Tbl.deleted <$> tables (destroy team pk db).2 !! pk) = Some false
   /\ lookup_object team pk (destroy team pk db).2 = Some table)
  /\ (Tbl.external_data_source table = None ->
      exists db',
        destroy team pk db = (Return (MkResponse 204 None), db')
        /\ tables db' !! pk = Some (Tbl.set_deleted table true)
        /\ Tbl.columns (Tbl.set_deleted table true) = Tbl.columns table
        /\ (forall pk', pk' <> pk -> tables db' !! pk' = tables db !! pk')
        /\ dom (tables db') = dom (tables db)
        /\ credentials db' = credentials db
        /\ tasks db' = tasks db
        /\ (Tbl.deleted <$> tables db' !! pk) = Some true
        /\ (exists row,
              tables db' !! pk = Some row
              /\ Tbl.deleted row = true
              /\ Tbl.deleted table = false
              /\ Tbl.team_id row = Tbl.team_id table
              /\ Tbl.created_by row = Tbl.created_by table
              /\ Tbl.name row = Tbl.name table
              /\ Tbl.format row = Tbl.format table
              /\ Tbl.url_pattern row = Tbl.url_pattern table
              /\ Tbl.credential row = Tbl.credential table
              /\ Tbl.external_data_source row = Tbl.external_data_source table
              /\ Tbl.columns row = Tbl.columns table)
        /\ (forall team', lookup_object team' pk db' = None)).
Proof.
  intros Hget.
  destruct (lookup_object_Some _ _ _ _ Hget) as (Hrow & Hteam & Hdel).
  split.
  - intros [source Hsrc].
    assert (Hrun : destroy team pk db
                   = (Return (MkResponse 400 (Some CantDeleteSourcedTable)), db)).
    { unfold destroy, bind, get_object, pure. rewrite Hget, Hsrc. reflexivity. }
    rewrite Hrun. simpl. rewrite Hrow. simpl. rewrite Hdel. auto.
  - intros Hsrc. eexists. split.
    { unfold destroy, bind, get_object, soft_delete, save, pure.
      rewrite Hget, Hsrc. reflexivity. }
    simpl. split; [apply lookup_insert_eq|].
    split; [reflexivity|].
    split; [intros pk' Hne; apply lookup_insert_ne; congruence|].
    split; [apply dom_insert_lookup_L; eauto|].
    split; [reflexivity|]. split; [reflexivity|].
    rewrite lookup_insert_eq.
    split; [reflexivity|].
    split.
    { exists (Tbl.set_deleted table true). simpl. auto 12. }
    intros team'. apply lookup_object_miss. right.
    exists (Tbl.set_deleted table true). simpl.
    split; [apply lookup_insert_eq | right; reflexivity].
Qed.

Lemma fresh_pk_unused {A} (rows : gmap nat A) : rows !! fresh (dom rows) = None.
Proof. apply not_elem_of_dom, is_fresh. Qed.

Lemma create_duplicate team user validated_data db :
  table_name_exists team (ValidatedData.name validated_data) db = true ->
  create' team user validated_data db
  = (Raise (ValidationError "Table name already exists."), db).
Proof.
  intros Hdup. unfold create, bind, query, pure. rewrite Hdup. reflexivity.
Qed.

(** A failure of the synchronizer when the request has no credential:
    nothing was written. *)
Lemma create_failure_without_credential team user validated_data db err :
  table_name_exists team (ValidatedData.name validated_data) db = false ->
  ValidatedData.credential validated_data = None ->
  get_columns (new_table team user validated_data None) = inl err ->
  create' team user validated_data db = (Raise (ValidationError err), db).
Proof.
  intros Hfree Hcred Hsync. unfold create, bind, query, pure.
  rewrite Hfree, Hcred. simpl. rewrite Hsync. reflexivity.
Qed.

(** C3, what [create] does. When the request carries a credential and
    the synchronizer raises, [create] raises [ValidationError] with the
    text of that exception; no table is saved and no task is queued,
    but the credential row written before the synchronizer ran is
    still in the database. *)
Theorem create_failure_keeps_credential team user validated_data db
    access_key access_secret err :
  table_name_exists team (ValidatedData.name validated_data) db = false ->
  ValidatedData.credential validated_data = Some (access_key, access_secret) ->
  get_columns (new_table team user validated_data (attached_credential validated_data db))
  = inl err ->
  exists c db',
    create' team user validated_data db = (Raise (ValidationError err), db')
    /\ tables db' = tables db
    /\ tasks db' = tasks db
    /\ credentials db !! c = None
    /\ credentials db' !! c = Some (Cred.Make team access_key access_secret)
    /\ db' <> db.
Proof.
  intros Hfree Hcred Hsync. unfold attached_credential in Hsync. rewrite Hcred in Hsync.
  exists (fresh (dom (credentials db))). eexists. split.
  { unfold create, bind, query, create_credential, pure.
    rewrite Hfree, Hcred. simpl. rewrite Hsync. reflexivity. }
  simpl. split; [reflexivity|]. split; [reflexivity|].
  split; [apply fresh_pk_unused|]. split; [apply lookup_insert_eq|].
  intros Heq. apply (f_equal (fun d => credentials d !! fresh (dom (credentials db)))) in Heq.
  simpl in Heq. rewrite lookup_insert_eq, fresh_pk_unused in Heq. discriminate.
Qed.

(** C6. [create] raises [ValidationError] "Table name already exists."
    and writes nothing when the team has a table of that name that is
    not deleted. When every table of that name is soft-deleted or
    belongs to another team, the name is free: provided the
    synchronizer returns a catalog, the new table is stored under a
    primary key that was unused and the validation task is queued. *)
Theorem create_name_uniqueness team user validated_data db :
  ((exists pk table,
       tables db !! pk = Some table /\ Tbl.deleted table = false
       /\ Tbl.team_id table = team
       /\ Tbl.name table = ValidatedData.name validated_data) ->
   create' team user validated_data db
   = (Raise (ValidationError "Table name already exists."), db))
  /\ ((forall pk table,
         tables db !! pk = Some table ->
         Tbl.name table = ValidatedData.name validated_data ->
         Tbl.deleted table = true \/ Tbl.team_id table <> team) ->
      forall columns,
        get_columns (new_table team user validated_data
                       (attached_credential validated_data db))
        = inr columns ->
        exists pk table db',
          create' team user validated_data db = (Return (pk, table), db')
          /\ tables db !! pk = None
          /\ tables db' !! pk = Some table
          /\ Tbl.name table = ValidatedData.name validated_data
          /\ Tbl.team_id table = team
          /\ Tbl.columns table = columns
          /\ tasks db' = tasks db ++ [(team, pk)]).
Proof.
  split.
  - intros Hdup. apply create_duplicate, table_name_exists_true. exact Hdup.
  - intros Hfree columns Hsync.
    apply table_name_exists_false in Hfree.
    exists (fresh (dom (tables db))).
    unfold attached_credential in Hsync.
    unfold create, bind, query, create_credential, save, delay, pure.
    rewrite Hfree.
    destruct (ValidatedData.credential validated_data) as [[access_key access_secret]|];
      simpl; rewrite Hsync; simpl.
    all: eexists _, _; split; [reflexivity|]; simpl.
    all: split; [apply fresh_pk_unused|].
    all: split; [apply lookup_insert_eq|].
    all: repeat split; reflexivity.
Qed.

End Lifecycle.

(** * The properties on the worked instance *)

Lemma spec_registry_accepts_STRING :
  accepted spec_field_types spec_clickhouse_mapping spec_hogql_mapping
           "STRING" "String" "StringDatabaseField".
Proof.
  split; [|split]; [|vm_compute; reflexivity..].
  apply list_elem_of_In. simpl. auto.
Qed.

Lemma no_arrays_ignores_valid key t d b :
  Tbl.columns t !! key = Some (Descriptor d) ->
  no_arrays (Tbl.set_columns t (<[key := Descriptor (<["valid" := JBool b]> d)]> (Tbl.columns t)))
            key
  = no_arrays t key.
Proof.
  intros Hkey. unfold no_arrays. simpl.
  rewrite lookup_insert_eq, Hkey, lookup_insert_ne by done. reflexivity.
Qed.

(** The example of the spec: [amount] goes from [Nullable(Float64)] to
    [Nullable(String)] and is found valid. *)
Lemma update_amount_to_string_types :
  exists d typed final db',
    typed = Tbl.set_columns orders (<["amount" := Descriptor d]> (Tbl.columns orders))
    /\ set_types spec_field_types spec_clickhouse_mapping spec_hogql_mapping
                 (Tbl.columns orders) [("amount", JStr "STRING")]
       = Continue (Tbl.columns typed)
    /\ d !! "clickhouse" = Some (JStr ("Nullable(" +:+ "String" +:+ ")"))
    /\ d !! "hogql" = Some (JStr "StringDatabaseField")
    /\ set_valids no_arrays typed ["amount"] = Continue final
    /\ Tbl.columns final !! "amount"
       = Some (Descriptor (<["valid" := JBool (no_arrays typed "amount")]> d))
    /\ spec_update_schema 1 1 (JObj [("amount", JStr "STRING")]) example_db
       = (Return (MkResponse 200 None), db')
    /\ tables db' = <[1 := final]> (<[1 := typed]> (tables example_db))
    /\ stored_column db' 1 "amount"
       = Some (Descriptor (<["valid" := JBool (no_arrays typed "amount")]> d)).
Proof.
  apply (update_schema_sets_types spec_field_types spec_clickhouse_mapping spec_hogql_mapping
           no_arrays 1 1 example_db orders "amount" (Descriptor amount_descriptor)
           "STRING" "String" "StringDatabaseField").
  - vm_compute. reflexivity.
  - reflexivity.
  - vm_compute. reflexivity.
  - exact spec_registry_accepts_STRING.
Defined.

Lemma update_amount_twice :
  exists db1 db2,
    spec_update_schema 1 1 (JObj [("amount", JStr "STRING")]) example_db
    = (Return (MkResponse 200 None), db1)
    /\ spec_update_schema 1 1 (JObj [("amount", JStr "STRING")]) db1
       = (Return (MkResponse 200 None), db2)
    /\ is_Some (stored_column db1 1 "amount")
    /\ stored_column db2 1 "amount" = stored_column db1 1 "amount"
    /\ db2 = db1.
Proof.
  apply (update_schema_idempotent spec_field_types spec_clickhouse_mapping spec_hogql_mapping
           no_arrays 1 1 example_db orders "amount" (Descriptor amount_descriptor)
           "STRING" "String" "StringDatabaseField").
  - vm_compute. reflexivity.
  - reflexivity.
  - vm_compute. reflexivity.
  - exact spec_registry_accepts_STRING.
  - intros t d b. apply no_arrays_ignores_valid.
Defined.

(** The table [events] belongs to an external data source, and yet the
    view answers 200 when the request has no "updates": it does not
    always fail on a sourced table. *)
Lemma update_schema_sourced_no_payload :
  lookup_object 1 2 example_db = Some events
  /\ Tbl.external_data_source events = Some 7
  /\ spec_update_schema 1 2 JNull example_db = (Return (MkResponse 200 None), example_db)
  /\ (spec_update_schema 1 2 JNull example_db).1
     <> Return (MkResponse 400 (Some MustBeManuallyLinked)).
Proof.
  split; [vm_compute; reflexivity|]. split; [reflexivity|].
  split; [reflexivity|]. simpl. discriminate.
Qed.

Lemma update_events_rejected :
  spec_update_schema 1 2 (JObj [("amount", JStr "STRING")]) example_db
  = (Return (MkResponse 400 (Some MustBeManuallyLinked)), example_db)
  /\ (spec_update_schema 1 2 (JObj [("amount", JStr "STRING")]) example_db).2 = example_db.
Proof.
  destruct (update_schema_sourced spec_field_types spec_clickhouse_mapping spec_hogql_mapping
              no_arrays 1 2 example_db events (JObj [("amount", JStr "STRING")]))
    as [Hresponse Hdb].
  - vm_compute. reflexivity.
  - exists 7. reflexivity.
  - split; [apply Hresponse; discriminate | exact Hdb].
Defined.

Lemma update_nonexistent_column :
  exists key,
    key ∈ [("nonexistent", JStr "STRING")].*1 /\ Tbl.columns orders !! key = None
    /\ spec_update_schema 1 1 (JObj [("nonexistent", JStr "STRING")]) example_db
       = (Return (MkResponse 400 (Some (ColumnDoesNotExist key))), example_db).
Proof.
  apply (update_schema_unknown_column spec_field_types spec_clickhouse_mapping
           spec_hogql_mapping no_arrays 1 1 example_db orders).
  - vm_compute. reflexivity.
  - reflexivity.
  - exists "nonexistent". split; [left | vm_compute; reflexivity].
Defined.

(** "String" is checked as "STRING", a type name, and then looked up as
    it was written. *)
Lemma update_amount_to_mixed_case_raises :
  spec_update_schema 1 1 (JObj [("amount", JStr "String")]) example_db
  = (Raise (KeyError "String"), example_db).
Proof.
  apply (update_schema_unmapped_type_raises spec_field_types spec_clickhouse_mapping
           spec_hogql_mapping no_arrays 1 1 example_db orders [] "amount" "String" []).
  - vm_compute. reflexivity.
  - reflexivity.
  - intros k Hk. apply list_elem_of_singleton in Hk as ->. vm_compute. eauto.
  - constructor.
  - apply list_elem_of_In. simpl. auto.
  - vm_compute. reflexivity.
Defined.

(** The table [nested] holds the one column [payload]; the source has
    [amount] and [id]. The refresh drops [payload] and brings the two in:
    an overwrite, not a merge and not a no-op. *)
Lemma refresh_nested_twice :
  stored_column nested_db 1 "payload" = Some (Descriptor nested_descriptor)
  /\ stored_column nested_db 1 "amount" = None
  /\ exists db1,
       (refresh_schema steady_source 1 1 nested_db = (Return (MkResponse 200 None), db1)
        /\ tables db1 = <[1 := Tbl.set_columns nested_table example_columns]> (tables nested_db)
        /\ (forall key, stored_column db1 1 key = example_columns !! key)
        /\ refresh_schema steady_source 1 1 db1 = (Return (MkResponse 200 None), db1))
       /\ stored_column db1 1 "payload" = None
       /\ stored_column db1 1 "amount" = Some (Descriptor amount_descriptor)
       /\ stored_column db1 1 "id" = Some (OldStyle "Nullable(Int64)")
       /\ db1 <> nested_db.
Proof.
  split; [vm_compute; reflexivity|]. split; [vm_compute; reflexivity|].
  destruct (refresh_schema_overwrites steady_source 1 1 nested_db nested_table
              example_columns)
    as (db1 & Hrun & Htables & Hstored & Hagain).
  - vm_compute. reflexivity.
  - reflexivity.
  - reflexivity.
  - exists db1. split; [auto|].
    rewrite !Hstored.
    split; [vm_compute; reflexivity|]. split; [vm_compute; reflexivity|].
    split; [vm_compute; reflexivity|].
    intros ->. specialize (Hstored "amount"). vm_compute in Hstored. discriminate.
Defined.

Lemma destroy_events_and_orders :
  (destroy 1 2 example_db = (Return (MkResponse 400 (Some CantDeleteSourcedTable)), example_db)
   /\ tables (destroy 1 2 example_db).2 !! 2 = Some events
   /\ (Tbl.deleted <$> tables (destroy 1 2 example_db).2 !! 2) = Some false
   /\ lookup_object 1 2 (destroy 1 2 example_db).2 = Some events)
  /\ exists db',
      destroy 1 1 example_db = (Return (MkResponse 204 None), db')
      /\ tables db' !! 1 = Some (Tbl.set_deleted orders true)
      /\ Tbl.columns (Tbl.set_deleted orders true) = Tbl.columns orders
      /\ (forall pk', pk' <> 1 -> tables db' !! pk' = tables example_db !! pk')
      /\ dom (tables db') = dom (tables example_db)
      /\ credentials db' = credentials example_db
      /\ tasks db' = tasks example_db
      /\ (Tbl.deleted <$> tables db' !! 1) = Some true
      /\ (exists row,
            tables db' !! 1 = Some row
            /\ Tbl.deleted row = true
            /\ Tbl.deleted orders = false
            /\ Tbl.team_id row = Tbl.team_id orders
            /\ Tbl.created_by row = Tbl.created_by orders
            /\ Tbl.name row = Tbl.name orders
            /\ Tbl.format row = Tbl.format orders
            /\ Tbl.url_pattern row = Tbl.url_pattern orders
            /\ Tbl.credential row = Tbl.credential orders
            /\ Tbl.external_data_source row = Tbl.external_data_source orders
            /\ Tbl.columns row = Tbl.columns orders)
      /\ (forall team', lookup_object team' 1 db' = None).
Proof.
  split.
  - apply (proj1 (destroy_sourced_or_soft_delete 1 2 example_db events
                    ltac:(vm_compute; reflexivity))).
    exists 7. reflexivity.
  - apply (proj2 (destroy_sourced_or_soft_delete 1 1 example_db orders
                    ltac:(vm_compute; reflexivity))).
    reflexivity.
Defined.

Lemma create_archive_with_broken_source :
  exists c db',
    create broken_source 1 1 archive_request example_db
    = (Raise (ValidationError "Could not get columns"), db')
    /\ tables db' = tables example_db
    /\ tasks db' = tasks example_db
    /\ credentials example_db !! c = None
    /\ credentials db' !! c = Some (Cred.Make 1 "AKIAEXAMPLE" "secret")
    /\ db' <> example_db.
Proof.
  apply (create_failure_keeps_credential broken_source 1 1 archive_request example_db
           "AKIAEXAMPLE" "secret" "Could not get columns").
  - vm_compute. reflexivity.
  - reflexivity.
  - reflexivity.
Defined.

Lemma create_orders_and_archive :
  create steady_source 1 1 orders_request example_db
  = (Raise (ValidationError "Table name already exists."), example_db)
  /\ exists pk table db',
      create steady_source 1 1 archive_request example_db = (Return (pk, table), db')
      /\ tables example_db !! pk = None
      /\ tables db' !! pk = Some table
      /\ Tbl.name table = "archive"
      /\ Tbl.team_id table = 1
      /\ Tbl.columns table = example_columns
      /\ tasks db' = tasks example_db ++ [(1, pk)].
Proof.
  split.
  - apply (proj1 (create_name_uniqueness steady_source 1 1 orders_request example_db)).
    exists 1, orders. repeat split; vm_compute; reflexivity.
  - apply (proj2 (create_name_uniqueness steady_source 1 1 archive_request example_db)).
    + intros pk table Hrow Hname.
      destruct (decide (pk = 3)) as [->|Hne].
      * left. vm_compute in Hrow. injection Hrow as <-. reflexivity.
      * exfalso. unfold example_db in Hrow. simpl in Hrow.
        rewrite !lookup_insert in Hrow.
        repeat case_decide; try lia; try discriminate;
          injection Hrow as <-; discriminate.
    + reflexivity.
Defined.

Lemma update_schema_no_payload_on_events :
  update_schema spec_field_types spec_clickhouse_mapping spec_hogql_mapping no_arrays
                1 2 JNull example_db
  = (Return (MkResponse HTTP_200_OK None), example_db)
  /\ update_schema spec_field_types spec_clickhouse_mapping spec_hogql_mapping no_arrays
                   1 9 (JObj []) example_db
     = (Raise Http404, example_db).
Proof.
  destruct (update_schema_without_updates spec_field_types spec_clickhouse_mapping
              spec_hogql_mapping no_arrays 1 2 example_db) as [Hnone _].
  destruct (update_schema_without_updates spec_field_types spec_clickhouse_mapping
              spec_hogql_mapping no_arrays 1 9 example_db) as [_ Hmissing].
  split; [exact Hnone | apply Hmissing; vm_compute; reflexivity].
Defined.

(** * Further properties of the views *)

(** ** [str.upper] and the type check *)

Lemma upper_ascii_idempotent c : upper_ascii (upper_ascii c) = upper_ascii c.
Proof. destruct c as [[] [] [] [] [] [] [] []]; reflexivity. Qed.

Lemma upper_lower_ascii c : upper_ascii (lower_ascii c) = upper_ascii c.
Proof. destruct c as [[] [] [] [] [] [] [] []]; reflexivity. Qed.

Lemma upper_lower s : upper (lower s) = upper s.
Proof.
  induction s as [|c rest IH]; simpl; [reflexivity|].
  rewrite upper_lower_ascii, IH. reflexivity.
Qed.

Lemma upper_idempotent s : upper (upper s) = upper s.
Proof.
  induction s as [|c rest IH]; simpl; [reflexivity|].
  rewrite upper_ascii_idempotent, IH. reflexivity.
Qed.

(** ** The loops of [update_schema] *)

Section UpdateSchemaLoops.

Context (DatabaseSerializedFieldType : list string)
        (SERIALIZED_FIELD_TO_CLICKHOUSE_MAPPING CLICKHOUSE_HOGQL_MAPPING : gmap string string)
        (validate_column_type : Tbl.t -> string -> bool).

Local Abbreviation parse_type' := (parse_type DatabaseSerializedFieldType).
Local Abbreviation set_type' :=
  (set_type DatabaseSerializedFieldType SERIALIZED_FIELD_TO_CLICKHOUSE_MAPPING
            CLICKHOUSE_HOGQL_MAPPING).
Local Abbreviation set_types' :=
  (set_types DatabaseSerializedFieldType SERIALIZED_FIELD_TO_CLICKHOUSE_MAPPING
             CLICKHOUSE_HOGQL_MAPPING).
Local Abbreviation set_valid' := (set_valid validate_column_type).
Local Abbreviation set_valids' := (set_valids validate_column_type).
Local Abbreviation accepted' :=
  (accepted DatabaseSerializedFieldType SERIALIZED_FIELD_TO_CLICKHOUSE_MAPPING
            CLICKHOUSE_HOGQL_MAPPING).
Local Abbreviation update_schema' :=
  (update_schema DatabaseSerializedFieldType SERIALIZED_FIELD_TO_CLICKHOUSE_MAPPING
                 CLICKHOUSE_HOGQL_MAPPING validate_column_type).

Lemma accepted_functional s ch h ch' h' :
  accepted' s ch h -> accepted' s ch' h' -> ch' = ch /\ h' = h.
Proof.
  intros (_ & Hch & Hh) (_ & Hch' & Hh').
  assert (ch' = ch) as -> by congruence. split; congruence.
Qed.

(** A turn of the second loop that goes on has retyped the column. *)
Lemma set_type_Continue (columns columns' : gmap string column) key value :
  set_type' columns key value = Continue columns' ->
  exists s ch h current_value,
    value = JStr s /\ accepted' s ch h /\ columns !! key = Some current_value
    /\ columns' = <[key := Descriptor (retyped current_value ch h)]> columns.
Proof.
  unfold set_type, parse_type. destruct value as [| | |s| |]; try discriminate.
  destruct (bool_decide (upper s ∈ DatabaseSerializedFieldType)) eqn:Hname; [|discriminate].
  apply bool_decide_eq_true in Hname.
  destruct (columns !! key) as [current_value|] eqn:Hcur; [|discriminate].
  destruct (SERIALIZED_FIELD_TO_CLICKHOUSE_MAPPING !! s) as [ch|] eqn:Hch; [|discriminate].
  destruct (CLICKHOUSE_HOGQL_MAPPING !! ch) as [h|] eqn:Hh; [|discriminate].
  intros [= <-]. exists s, ch, h, current_value.
  repeat split; assumption.
Qed.

(** What the second loop leaves when it runs to its end. *)
Lemma set_types_Continue (columns columns' : gmap string column) updates :
  set_types' columns updates = Continue columns' ->
  (forall k, is_Some (columns' !! k) <-> is_Some (columns !! k))
  /\ (forall k, k ∉ updates.*1 -> columns' !! k = columns !! k)
  /\ (forall k, k ∈ updates.*1 -> exists d, columns' !! k = Some (Descriptor d))
  /\ (forall k current_value,
        columns !! k = Some current_value ->
        exists current_value',
          columns' !! k = Some current_value'
          /\ forall m, m <> "clickhouse" -> m <> "hogql" ->
                       members_of current_value' !! m = members_of current_value !! m).
Proof.
  revert columns. induction updates as [|[key value] rest IH]; intros columns; simpl.
  - intros [= <-]. repeat split; try tauto.
    + intros k Hk. inversion Hk.
    + intros k current_value Hk. eauto.
  - destruct (set_type' columns key value) as [columns1| |] eqn:Hstep; try discriminate.
    simpl. intros Hrest.
    destruct (set_type_Continue _ _ _ _ Hstep)
      as (s & ch & h & current_value & -> & Hacc & Hcur & ->).
    destruct (IH _ Hrest) as (Hdom & Hother & Hdesc & Hmembers).
    split; [|split; [|split]].
    + intros k. rewrite Hdom, lookup_insert. case_decide; subst; [|tauto].
      split; eauto.
    + intros k Hk. apply not_elem_of_cons in Hk as [Hne Hk].
      rewrite Hother by exact Hk. apply lookup_insert_ne. congruence.
    + intros k Hk. destruct (decide (k ∈ rest.*1)) as [Hin|Hout]; [auto|].
      apply elem_of_cons in Hk as [->|Hk]; [|contradiction].
      rewrite Hother by exact Hout. rewrite lookup_insert_eq. eauto.
    + intros k cur Hk.
      destruct (decide (key = k)) as [->|Hne].
      * destruct (Hmembers k (Descriptor (retyped current_value ch h)))
          as (cur' & Hcur' & Hsame); [apply lookup_insert_eq|].
        exists cur'. split; [exact Hcur'|].
        intros m Hm1 Hm2. rewrite Hsame by assumption.
        assert (cur = current_value) as -> by congruence.
        simpl. unfold retyped. rewrite !lookup_insert_ne by congruence.
        destruct current_value; reflexivity.
      * apply Hmembers. rewrite lookup_insert_ne by exact Hne. exact Hk.
Qed.

(** With distinct keys, each column holds the types of its own update. *)
Lemma set_types_types (columns columns' : gmap string column) updates key s ch h :
  set_types' columns updates = Continue columns' ->
  NoDup updates.*1 ->
  (key, JStr s) ∈ updates ->
  accepted' s ch h ->
  exists d,
    columns' !! key = Some (Descriptor d)
    /\ d !! "clickhouse" = Some (JStr ("Nullable(" +:+ ch +:+ ")"))
    /\ d !! "hogql" = Some (JStr h).
Proof.
  revert columns. induction updates as [|[key0 value0] rest IH]; intros columns; simpl.
  - intros _ _ Hin. inversion Hin.
  - destruct (set_type' columns key0 value0) as [columns1| |] eqn:Hstep; try discriminate.
    simpl. intros Hrest Hnodup Hin Hacc.
    apply NoDup_cons in Hnodup as [Hfresh Hnodup].
    apply elem_of_cons in Hin as [Heq|Hin].
    + injection Heq as <- <-.
      destruct (set_type_Continue _ _ _ _ Hstep)
        as (s' & ch' & h' & current_value & [= <-] & Hacc' & Hcur & ->).
      destruct (accepted_functional _ _ _ _ _ Hacc Hacc') as [-> ->].
      destruct (set_types_Continue _ _ _ Hrest) as (_ & Hother & _).
      exists (retyped current_value ch h).
      rewrite Hother by exact Hfresh. rewrite lookup_insert_eq.
      split; [reflexivity|]. unfold retyped.
      split; [rewrite lookup_insert_ne by done|]; apply lookup_insert_eq.
    + apply (IH columns1); assumption.
Qed.

(** The third loop on a table in which the keys are dicts: it runs to its
    end, touches the member "valid" of these columns and nothing else. *)
Lemma set_valids_Continue table keys :
  (forall k, k ∈ keys -> exists d, Tbl.columns table !! k = Some (Descriptor d)) ->
  exists final,
    set_valids' table keys = Continue final
    /\ final = Tbl.set_columns table (Tbl.columns final)
    /\ (forall k, is_Some (Tbl.columns final !! k) <-> is_Some (Tbl.columns table !! k))
    /\ (forall k, k ∉ keys -> Tbl.columns final !! k = Tbl.columns table !! k)
    /\ (forall k d, k ∈ keys -> Tbl.columns table !! k = Some (Descriptor d) ->
          exists b, Tbl.columns final !! k = Some (Descriptor (<["valid" := JBool b]> d)))
    /\ (forall k current_value,
          Tbl.columns table !! k = Some current_value ->
          exists current_value',
            Tbl.columns final !! k = Some current_value'
            /\ forall m, m <> "valid" ->
                         members_of current_value' !! m = members_of current_value !! m).
Proof.
  revert table. induction keys as [|key rest IH]; intros table Hdicts; simpl.
  - exists table. split; [reflexivity|].
    split; [symmetry; apply set_columns_same|].
    split; [tauto|]. split; [auto|].
    split; [intros k d Hk; inversion Hk | eauto].
  - destruct (Hdicts key) as [d0 Hkey]; [left|].
    rewrite (set_valid_descriptor _ _ _ d0) by exact Hkey. simpl.
    set (valid := validate_column_type table key).
    set (table1 := Tbl.set_columns table
                     (<[key := Descriptor (<["valid" := JBool valid]> d0)]> (Tbl.columns table))).
    destruct (IH table1) as (final & Hrun & Hfields & Hdom & Hother & Hvalid & Hmembers).
    { intros k Hk. unfold table1. simpl. rewrite lookup_insert.
      case_decide; [eauto|]. apply Hdicts. right. exact Hk. }
    exists final. split; [exact Hrun|].
    split; [rewrite Hfields at 1; reflexivity|].
    split; [|split; [|split]].
    + intros k. rewrite Hdom. unfold table1. simpl. rewrite lookup_insert.
      case_decide; subst; [|tauto]. split; eauto.
    + intros k Hk. apply not_elem_of_cons in Hk as [Hne Hk].
      rewrite Hother by exact Hk. unfold table1. simpl.
      apply lookup_insert_ne. congruence.
    + intros k d Hk Hd.
      destruct (decide (key = k)) as [->|Hne].
      * assert (d = d0) as -> by congruence.
        destruct (decide (k ∈ rest)) as [Hin|Hout].
        -- destruct (Hvalid k (<["valid" := JBool valid]> d0) Hin) as [b Hb].
           { unfold table1. simpl. apply lookup_insert_eq. }
           exists b. rewrite Hb, insert_insert_eq. reflexivity.
        -- exists valid. rewrite Hother by exact Hout.
           unfold table1. simpl. apply lookup_insert_eq.
      * apply elem_of_cons in Hk as [->|Hk]; [congruence|].
        apply Hvalid; [exact Hk|].
        unfold table1. simpl. rewrite lookup_insert_ne by exact Hne. exact Hd.
    + intros k cur Hk.
      destruct (decide (key = k)) as [->|Hne].
      * destruct (Hmembers k (Descriptor (<["valid" := JBool valid]> d0)))
          as (cur' & Hcur' & Hsame).
        { unfold table1. simpl. apply lookup_insert_eq. }
        exists cur'. split; [exact Hcur'|].
        intros m Hm. rewrite Hsame by exact Hm.
        assert (cur = Descriptor d0) as -> by congruence.
        simpl. apply lookup_insert_ne. congruence.
      * apply Hmembers. unfold table1. simpl.
        rewrite lookup_insert_ne by exact Hne. exact Hk.
Qed.

Lemma check_keys_Continue (columns : gmap string column) keys u :
  check_keys columns keys = Continue u ->
  forall k, k ∈ keys -> is_Some (columns !! k).
Proof.
  induction keys as [|key rest IH]; simpl; intros Hrun k Hk.
  - inversion Hk.
  - destruct (columns !! key) eqn:Hkey; [|discriminate].
    apply elem_of_cons in Hk as [->|Hk]; eauto.
Qed.

Lemma db_eta db : MkDB (tables db) (credentials db) (tasks db) = db.
Proof. destruct db; reflexivity. Qed.

(** Every run of the view either leaves the database as it was or went
    through the three loops and saved twice. *)
Lemma update_schema_outcome team pk updates db :
  (update_schema' team pk updates db).2 = db
  \/ exists table members columns final,
       updates = JObj members
       /\ lookup_object team pk db = Some table
       /\ Tbl.external_data_source table = None
       /\ set_types' (Tbl.columns table) members = Continue columns
       /\ set_valids' (Tbl.set_columns table columns) members.*1 = Continue final
       /\ update_schema' team pk updates db
          = (Return (MkResponse 200 None),
             MkDB (<[pk := final]> (<[pk := Tbl.set_columns table columns]> (tables db)))
                  (credentials db) (tasks db)).
Proof.
  destruct (lookup_object team pk db) as [table|] eqn:Hget.
  2: { left. destruct updates; try reflexivity.
       all: unfold update_schema, bind, get_object; rewrite Hget; reflexivity. }
  destruct (Tbl.external_data_source table) as [source|] eqn:Hsrc.
  { left. destruct updates; try reflexivity.
    all: unfold update_schema, bind, get_object, pure; rewrite Hget, Hsrc; reflexivity. }
  destruct updates as [| | | | |members].
  1-5: left; try reflexivity.
  1-4: unfold update_schema, bind, get_object, pure; rewrite Hget, Hsrc; reflexivity.
  rewrite (update_schema_unfold _ _ _ _ _ _ _ _ table) by assumption.
  destruct (check_keys (Tbl.columns table) members.*1) as [u| |] eqn:Hkeys;
    [|left; reflexivity..].
  destruct (set_types' (Tbl.columns table) members) as [columns| |] eqn:Htypes;
    [|left; reflexivity..].
  destruct (set_types_Continue _ _ _ Htypes) as (_ & _ & Hdicts & _).
  destruct (set_valids_Continue (Tbl.set_columns table columns) members.*1 Hdicts)
    as (final & Hvalids & _).
  right. exists table, members, columns, final.
  cbv zeta. rewrite Hvalids. auto 10.
Qed.

(** X1. Whatever the payload, the team and the primary key,
    [update_schema] either answers 200 or returns the database it was
    given: a request that fails at any statement has saved nothing. *)
Theorem update_schema_all_or_nothing team pk updates db :
  (update_schema DatabaseSerializedFieldType SERIALIZED_FIELD_TO_CLICKHOUSE_MAPPING
                 CLICKHOUSE_HOGQL_MAPPING validate_column_type team pk updates db).1
  = Return (MkResponse HTTP_200_OK None)
  \/ (update_schema DatabaseSerializedFieldType SERIALIZED_FIELD_TO_CLICKHOUSE_MAPPING
                    CLICKHOUSE_HOGQL_MAPPING validate_column_type team pk updates db).2
     = db.
Proof.
  destruct (update_schema_outcome team pk updates db)
    as [Hsame|(table & members & columns & final & _ & _ & _ & _ & _ & Hrun)].
  - right. exact Hsame.
  - left. rewrite Hrun. reflexivity.
Qed.

(** X2. [update_schema] writes to one thing only, the catalog of the
    table it was called on: credentials, tasks and the other rows are as
    they were, no row appears, every field of the row but [columns] is
    kept, the catalog has the same keys as before, and a column that the
    payload does not name keeps its entry. *)
Theorem update_schema_frame team pk updates db :
  let db' :=
    (update_schema DatabaseSerializedFieldType SERIALIZED_FIELD_TO_CLICKHOUSE_MAPPING
                   CLICKHOUSE_HOGQL_MAPPING validate_column_type team pk updates db).2 in
  credentials db' = credentials db
  /\ tasks db' = tasks db
  /\ (forall pk', pk' <> pk -> tables db' !! pk' = tables db !! pk')
  /\ (tables db !! pk = None -> tables db' !! pk = None)
  /\ (forall table,
        tables db !! pk = Some table ->
        exists columns,
          tables db' !! pk = Some (Tbl.set_columns table columns)
          /\ (forall k, is_Some (columns !! k) <-> is_Some (Tbl.columns table !! k))
          /\ (forall k, (forall members, updates = JObj members -> k ∉ members.*1) ->
                        columns !! k = Tbl.columns table !! k)).
Proof.
  cbv zeta.
  destruct (update_schema_outcome team pk updates db)
    as [Hsame|(table & members & columns & final & -> & Hget & _ & Htypes & Hvalids & Hrun)].
  - rewrite Hsame. repeat split; auto.
    intros table Hrow. exists (Tbl.columns table).
    rewrite set_columns_same. split; [exact Hrow|]. split; [tauto | auto].
  - rewrite Hrun. simpl.
    destruct (lookup_object_Some _ _ _ _ Hget) as (Hrow & _ & _).
    destruct (set_types_Continue _ _ _ Htypes) as (Hdom1 & Hother1 & Hdicts & _).
    destruct (set_valids_Continue (Tbl.set_columns table columns) members.*1 Hdicts)
      as (final' & Hvalids' & Hfields & Hdom2 & Hother2 & _).
    assert (final' = final) as -> by congruence.
    repeat split; auto.
    + intros pk' Hne. rewrite !lookup_insert_ne by congruence. reflexivity.
    + congruence.
    + intros table' Hrow'. assert (table' = table) as -> by congruence.
      exists (Tbl.columns final). rewrite lookup_insert_eq.
      split; [rewrite Hfields at 1; reflexivity|].
      split.
      * intros k. rewrite Hdom2. simpl. apply Hdom1.
      * intros k Hk. specialize (Hk members eq_refl).
        rewrite Hother2 by exact Hk. simpl. apply Hother1. exact Hk.
Qed.

(** X3. A payload with several keys: when every key is a catalog column
    and every requested type is accepted by the registry, the view
    answers 200 and each named column is stored with the native type
    [Nullable(ch)] and the query type [h] of its own requested type, and
    with a boolean under "valid". *)
Theorem update_schema_many team pk db table members :
  lookup_object team pk db = Some table ->
  Tbl.external_data_source table = None ->
  NoDup members.*1 ->
  (forall k, k ∈ members.*1 -> is_Some (Tbl.columns table !! k)) ->
  Forall (valid_update DatabaseSerializedFieldType SERIALIZED_FIELD_TO_CLICKHOUSE_MAPPING
                       CLICKHOUSE_HOGQL_MAPPING) members ->
  exists db',
    update_schema DatabaseSerializedFieldType SERIALIZED_FIELD_TO_CLICKHOUSE_MAPPING
                  CLICKHOUSE_HOGQL_MAPPING validate_column_type team pk (JObj members) db
    = (Return (MkResponse HTTP_200_OK None), db')
    /\ forall key s ch h,
         (key, JStr s) ∈ members ->
         accepted' s ch h ->
         exists d b,
           stored_column db' pk key = Some (Descriptor d)
           /\ d !! "clickhouse" = Some (JStr ("Nullable(" +:+ ch +:+ ")"))
           /\ d !! "hogql" = Some (JStr h)
           /\ d !! "valid" = Some (JBool b).
Proof.
  intros Hget Hsrc Hnodup Hkeys Hvalid.
  destruct (set_types_valid _ _ _ (Tbl.columns table) members Hvalid Hkeys)
    as (columns & Htypes & _).
  destruct (set_types_Continue _ _ _ Htypes) as (_ & _ & Hdicts & _).
  destruct (set_valids_Continue (Tbl.set_columns table columns) members.*1 Hdicts)
    as (final & Hvalids & _ & _ & _ & Hflag & _).
  eexists. split.
  { rewrite (update_schema_unfold _ _ _ _ _ _ _ _ table) by assumption.
    rewrite check_keys_present by exact Hkeys.
    rewrite Htypes. cbv zeta. rewrite Hvalids. reflexivity. }
  intros key s ch h Hin Hacc.
  destruct (set_types_types _ _ _ key s ch h Htypes Hnodup Hin Hacc)
    as (d & Hd & Hch & Hh).
  destruct (Hflag key d) as [b Hb]; [|exact Hd|].
  { apply list_elem_of_fmap. exists (key, JStr s). auto. }
  exists (<["valid" := JBool b]> d), b.
  unfold stored_column. simpl. rewrite lookup_insert_eq.
  split; [exact Hb|].
  rewrite !lookup_insert_ne by done. rewrite lookup_insert_eq. auto.
Qed.

(** X4. A payload that is neither absent nor a dict (a list, a string, a
    number, a boolean) on a manually linked table: [updates.keys()]
    raises [AttributeError], and nothing is saved. *)
Theorem update_schema_not_a_dict team pk db table updates :
  lookup_object team pk db = Some table ->
  Tbl.external_data_source table = None ->
  updates <> JNull ->
  (forall members, updates <> JObj members) ->
  update_schema DatabaseSerializedFieldType SERIALIZED_FIELD_TO_CLICKHOUSE_MAPPING
                CLICKHOUSE_HOGQL_MAPPING validate_column_type team pk updates db
  = (Raise AttributeError, db).
Proof.
  intros Hget Hsrc Hpresent Hshape.
  destruct updates as [| | | | |members]; try congruence.
  all: unfold update_schema, bind, get_object, pure; rewrite Hget, Hsrc; reflexivity.
Qed.

(** X5. An empty dict of updates on a manually linked table is answered
    with 200 and the two saves write the row back as it was: the
    database is unchanged. *)
Theorem update_schema_empty_dict team pk db table :
  lookup_object team pk db = Some table ->
  Tbl.external_data_source table = None ->
  update_schema DatabaseSerializedFieldType SERIALIZED_FIELD_TO_CLICKHOUSE_MAPPING
                CLICKHOUSE_HOGQL_MAPPING validate_column_type team pk (JObj []) db
  = (Return (MkResponse HTTP_200_OK None), db).
Proof.
  intros Hget Hsrc.
  destruct (lookup_object_Some _ _ _ _ Hget) as (Hrow & _ & _).
  rewrite (update_schema_unfold _ _ _ _ _ _ _ _ table) by assumption.
  simpl. rewrite set_columns_same, insert_insert_eq, insert_id by exact Hrow.
  rewrite db_eta. reflexivity.
Qed.

(** X6. Whatever the outcome, an entry of the catalog keeps every member
    other than "clickhouse", "hogql" and "valid" (a nested "fields"
    member, say), and gains none: an entry in the old style ends with
    these three members at most. *)
Theorem update_schema_keeps_other_members team pk updates db table k current_value :
  tables db !! pk = Some table ->
  Tbl.columns table !! k = Some current_value ->
  exists current_value',
    stored_column
      (update_schema DatabaseSerializedFieldType SERIALIZED_FIELD_TO_CLICKHOUSE_MAPPING
                     CLICKHOUSE_HOGQL_MAPPING validate_column_type team pk updates db).2
      pk k
    = Some current_value'
    /\ forall m, m <> "clickhouse" -> m <> "hogql" -> m <> "valid" ->
                 members_of current_value' !! m = members_of current_value !! m.
Proof.
  intros Hrow Hcur.
  destruct (update_schema_outcome team pk updates db)
    as [Hsame|(table' & members & columns & final & -> & Hget & _ & Htypes & Hvalids & Hrun)].
  - rewrite Hsame. exists current_value. unfold stored_column. rewrite Hrow. auto.
  - rewrite Hrun.
    destruct (lookup_object_Some _ _ _ _ Hget) as (Hrow' & _ & _).
    assert (table' = table) as -> by congruence.
    destruct (set_types_Continue _ _ _ Htypes) as (_ & _ & Hdicts & Hmembers1).
    destruct (set_valids_Continue (Tbl.set_columns table columns) members.*1 Hdicts)
      as (final' & Hvalids' & _ & _ & _ & _ & Hmembers2).
    assert (final' = final) as -> by congruence.
    destruct (Hmembers1 k current_value Hcur) as (cur1 & Hcur1 & Hsame1).
    destruct (Hmembers2 k cur1 Hcur1) as (cur2 & Hcur2 & Hsame2).
    exists cur2. unfold stored_column. simpl. rewrite lookup_insert_eq.
    split; [exact Hcur2|].
    intros m Hm1 Hm2 Hm3. rewrite Hsame2, Hsame1 by assumption. reflexivity.
Qed.

(** X7. The type check does not look at the case of the requested type:
    of two ASCII strings that differ in case only (the same text once in
    lower case), [DatabaseSerializedFieldType[value.upper()]] accepts
    both or neither; and when it rejects one, the loop answers the 400
    "Can not parse type" for each of them. *)
Theorem type_check_ignores_case (columns : gmap string column) key s s' :
  is_ascii s = true -> is_ascii s' = true ->
  lower s = lower s' ->
  (is_Some (parse_type DatabaseSerializedFieldType (JStr s))
   <-> is_Some (parse_type DatabaseSerializedFieldType (JStr s')))
  /\ (parse_type DatabaseSerializedFieldType (JStr s) = None ->
      set_type DatabaseSerializedFieldType SERIALIZED_FIELD_TO_CLICKHOUSE_MAPPING
               CLICKHOUSE_HOGQL_MAPPING columns key (JStr s)
      = Return (MkResponse 400 (Some (CanNotParseType (JStr s) key)))
      /\ set_type DatabaseSerializedFieldType SERIALIZED_FIELD_TO_CLICKHOUSE_MAPPING
                  CLICKHOUSE_HOGQL_MAPPING columns key (JStr s')
         = Return (MkResponse 400 (Some (CanNotParseType (JStr s') key)))).
Proof.
  intros _ _ Hcase.
  assert (Hupper : upper s = upper s').
  { rewrite <- (upper_lower s), <- (upper_lower s'), Hcase. reflexivity. }
  assert (Hboth : is_Some (parse_type DatabaseSerializedFieldType (JStr s))
                  <-> is_Some (parse_type DatabaseSerializedFieldType (JStr s'))).
  { simpl. rewrite Hupper.
    destruct (bool_decide (upper s' ∈ DatabaseSerializedFieldType)); split; intros [x Hx];
      try discriminate; eauto. }
  split; [exact Hboth|].
  intros Hrejected.
  assert (Hrejected' : parse_type DatabaseSerializedFieldType (JStr s') = None).
  { destruct (parse_type DatabaseSerializedFieldType (JStr s')) eqn:Hs'; [|reflexivity].
    destruct (proj2 Hboth) as [x Hx]; [eauto|]. congruence. }
  unfold set_type. rewrite Hrejected, Hrejected'. auto.
Qed.

End UpdateSchemaLoops.

(** ** Scope, refresh and creation *)

Lemma lookup_object_None team pk db :
  (tables db !! pk = None
   \/ exists table, tables db !! pk = Some table
                    /\ (Tbl.team_id table <> team \/ Tbl.deleted table = true)) ->
  lookup_object team pk db = None.
Proof. apply lookup_object_miss. Qed.

Section LifecycleMore.

Context (DatabaseSerializedFieldType : list string)
        (SERIALIZED_FIELD_TO_CLICKHOUSE_MAPPING CLICKHOUSE_HOGQL_MAPPING : gmap string string)
        (validate_column_type : Tbl.t -> string -> bool)
        (get_columns : Tbl.t -> string + gmap string column).

(** X8. A primary key that designates no row, a row of another team or a
    soft-deleted row: [update_schema] (with a payload), [destroy] and
    [refresh_schema] all raise [Http404] and leave the database as it
    was. *)
Theorem views_hide_other_rows team pk db :
  (tables db !! pk = None
   \/ exists table, tables db !! pk = Some table
                    /\ (Tbl.team_id table <> team \/ Tbl.deleted table = true)) ->
  (forall updates,
      updates <> JNull ->
      update_schema DatabaseSerializedFieldType SERIALIZED_FIELD_TO_CLICKHOUSE_MAPPING
                    CLICKHOUSE_HOGQL_MAPPING validate_column_type team pk updates db
      = (Raise Http404, db))
  /\ destroy team pk db = (Raise Http404, db)
  /\ refresh_schema get_columns team pk db = (Raise Http404, db).
Proof.
  intros Hhidden. apply lookup_object_None in Hhidden.
  split; [|split].
  - intros updates Hpresent. destruct updates; try congruence.
    all: unfold update_schema, bind, get_object; rewrite Hhidden; reflexivity.
  - unfold destroy, bind, get_object. rewrite Hhidden. reflexivity.
  - unfold refresh_schema, bind, get_object. rewrite Hhidden. reflexivity.
Qed.

(** X9. The three ways [refresh_schema] ends. It answers 200 after
    storing the synchronizer's catalog in the row, with nothing else
    changed, and this on a sourced table as on any other; or it raises
    [Http404]; or the synchronizer raised and its exception escapes as it
    is (not as a [ValidationError]). In the last two cases the database
    is the one it was given. *)
Theorem refresh_schema_outcome team pk db :
  (exists table columns,
      lookup_object team pk db = Some table
      /\ get_columns table = inr columns
      /\ refresh_schema get_columns team pk db
         = (Return (MkResponse HTTP_200_OK None),
            MkDB (<[pk := Tbl.set_columns table columns]> (tables db))
                 (credentials db) (tasks db)))
  \/ (lookup_object team pk db = None
      /\ refresh_schema get_columns team pk db = (Raise Http404, db))
  \/ (exists table msg,
        lookup_object team pk db = Some table
        /\ get_columns table = inl msg
        /\ refresh_schema get_columns team pk db = (Raise (Exception msg), db)).
Proof.
  unfold refresh_schema, bind, get_object, save, pure.
  destruct (lookup_object team pk db) as [table|] eqn:Hget; [|right; left; auto].
  destruct (get_columns table) as [msg|columns] eqn:Hsync.
  - right. right. exists table, msg. auto.
  - left. exists table, columns. auto.
Qed.

(** X10. A refresh discards the manual overrides: when the synchronizer
    reads the source and not the stored catalog, [refresh_schema] after
    any [update_schema] on the table gives the database that
    [refresh_schema] alone would have given. *)
Theorem refresh_discards_overrides team pk updates db table columns :
  lookup_object team pk db = Some table ->
  get_columns table = inr columns ->
  (forall t c, get_columns (Tbl.set_columns t c) = get_columns t) ->
  refresh_schema get_columns team pk
    (update_schema DatabaseSerializedFieldType SERIALIZED_FIELD_TO_CLICKHOUSE_MAPPING
                   CLICKHOUSE_HOGQL_MAPPING validate_column_type team pk updates db).2
  = refresh_schema get_columns team pk db.
Proof.
  intros Hget Hsync Hsource.
  destruct (update_schema_outcome DatabaseSerializedFieldType
              SERIALIZED_FIELD_TO_CLICKHOUSE_MAPPING CLICKHOUSE_HOGQL_MAPPING
              validate_column_type team pk updates db)
    as [Hsame|(table' & members & typed & final & -> & Hget' & _ & Htypes & Hvalids & Hrun)].
  - rewrite Hsame. reflexivity.
  - rewrite Hrun. simpl.
    assert (table' = table) as -> by congruence.
    destruct (lookup_object_Some _ _ _ _ Hget) as (_ & Hteam & Hdel).
    destruct (set_types_Continue _ _ _ _ _ _ Htypes) as (_ & _ & Hdicts & _).
    destruct (set_valids_Continue validate_column_type
                (Tbl.set_columns table typed) members.*1 Hdicts)
      as (final' & Hvalids' & Hfields & _).
    assert (final' = final) as -> by congruence.
    assert (Hfinal : final = Tbl.set_columns table (Tbl.columns final)).
    { rewrite Hfields at 1. reflexivity. }
    unfold refresh_schema, bind, get_object, save, pure.
    rewrite Hget, Hsync. rewrite Hfinal at 1.
    rewrite lookup_object_set_columns by assumption.
    rewrite Hsource, Hsync. simpl. rewrite !insert_insert_eq. reflexivity.
Qed.

(** What a [create] that returns has done. *)
Lemma create_Return team user validated_data db pk table db1 :
  create get_columns team user validated_data db = (Return (pk, table), db1) ->
  table_name_exists team (ValidatedData.name validated_data) db = false
  /\ pk = fresh (dom (tables db))
  /\ (exists columns,
        get_columns (new_table team user validated_data
                       (attached_credential validated_data db)) = inr columns
        /\ table = Tbl.set_columns
                     (new_table team user validated_data
                        (attached_credential validated_data db)) columns)
  /\ tables db1 = <[pk := table]> (tables db)
  /\ tasks db1 = tasks db ++ [(team, pk)]
  /\ credentials db1
     = match ValidatedData.credential validated_data with
       | Some (access_key, access_secret) =>
           <[fresh (dom (credentials db)) := Cred.Make team access_key access_secret]>
             (credentials db)
       | None => credentials db
       end.
Proof.
  unfold create, attached_credential, bind, query, create_credential, save, delay, pure.
  destruct (table_name_exists team (ValidatedData.name validated_data) db); [discriminate|].
  destruct (ValidatedData.credential validated_data) as [[access_key access_secret]|]; simpl.
  all: destruct (get_columns _) as [err|columns] eqn:Hsync; [discriminate|].
  all: intros [= <- <- <-]; simpl; eauto 10.
Qed.

(** What a [create] that raises has done. *)
Lemma create_Raise team user validated_data db e db1 :
  create get_columns team user validated_data db = (Raise e, db1) ->
  (e = ValidationError "Table name already exists." /\ db1 = db)
  \/ (exists err,
        get_columns (new_table team user validated_data
                       (attached_credential validated_data db)) = inl err
        /\ e = ValidationError err
        /\ tables db1 = tables db /\ tasks db1 = tasks db
        /\ credentials db1
           = match ValidatedData.credential validated_data with
             | Some (access_key, access_secret) =>
                 <[fresh (dom (credentials db)) := Cred.Make team access_key access_secret]>
                   (credentials db)
             | None => credentials db
             end).
Proof.
  unfold create, attached_credential, bind, query, create_credential, save, delay, pure.
  destruct (table_name_exists team (ValidatedData.name validated_data) db).
  { intros [= <- <-]. left. auto. }
  destruct (ValidatedData.credential validated_data) as [[access_key access_secret]|]; simpl.
  all: destruct (get_columns _) as [err|columns] eqn:Hsync; [|discriminate].
  all: intros [= <- <-]; right; exists err; simpl; auto 10.
Qed.

(** X11. After a [create] that returned a table that is not deleted, any
    other [create] in the same team with the same name, whoever asks and
    whatever the source holds, raises "Table name already exists." and
    writes nothing. *)
Theorem create_then_create team user validated_data db pk table db1
    get_columns' user' validated_data' :
  create get_columns team user validated_data db = (Return (pk, table), db1) ->
  ValidatedData.deleted validated_data = false ->
  ValidatedData.name validated_data' = ValidatedData.name validated_data ->
  create get_columns' team user' validated_data' db1
  = (Raise (ValidationError "Table name already exists."), db1).
Proof.
  intros Hcreate Hlive Hname.
  destruct (create_Return _ _ _ _ _ _ _ Hcreate)
    as (_ & _ & (columns & _ & ->) & Htables & _).
  apply create_duplicate, table_name_exists_true.
  eexists pk, _. rewrite Htables, lookup_insert_eq.
  split; [reflexivity|]. simpl. rewrite Hname. auto.
Qed.

(** X12. The table that [create] returns is the one the views of its
    team load at the returned primary key, provided it was not created
    deleted; no other team can load it; and it has no external data
    source, so [update_schema] and [destroy] accept it. *)
Theorem create_then_get_object team user validated_data db pk table db1 :
  create get_columns team user validated_data db = (Return (pk, table), db1) ->
  ValidatedData.deleted validated_data = false ->
  lookup_object team pk db1 = Some table
  /\ (forall team', team' <> team -> lookup_object team' pk db1 = None)
  /\ Tbl.external_data_source table = None
  /\ tables db !! pk = None.
Proof.
  intros Hcreate Hlive.
  destruct (create_Return _ _ _ _ _ _ _ Hcreate)
    as (_ & -> & (columns & _ & ->) & Htables & _).
  split; [|split; [|split]].
  - apply lookup_object_stored; [rewrite Htables; apply lookup_insert_eq | reflexivity | exact Hlive].
  - intros team' Hne. apply lookup_object_None. right.
    eexists. split; [rewrite Htables; apply lookup_insert_eq|]. left. simpl. congruence.
  - reflexivity.
  - apply fresh_pk_unused.
Qed.

(** X13. A [create] that returns keeps every row and every credential
    that was there. With credential fields it has stored one new
    credential, of the team, with the key and secret given, and the table
    refers to it; without them the credentials are as they were and the
    table refers to none. *)
Theorem create_frame team user validated_data db pk table db1 :
  create get_columns team user validated_data db = (Return (pk, table), db1) ->
  (forall pk' row, tables db !! pk' = Some row -> tables db1 !! pk' = Some row)
  /\ (forall c row, credentials db !! c = Some row -> credentials db1 !! c = Some row)
  /\ match ValidatedData.credential validated_data with
     | Some (access_key, access_secret) =>
         exists c,
           credentials db !! c = None
           /\ credentials db1 = <[c := Cred.Make team access_key access_secret]> (credentials db)
           /\ Tbl.credential table = Some c
     | None => credentials db1 = credentials db /\ Tbl.credential table = None
     end.
Proof.
  intros Hcreate.
  destruct (create_Return _ _ _ _ _ _ _ Hcreate)
    as (_ & -> & (columns & _ & ->) & Htables & _ & Hcreds).
  split; [|split].
  - intros pk' row Hrow. rewrite Htables, lookup_insert_ne; [exact Hrow|].
    intros <-. rewrite fresh_pk_unused in Hrow. discriminate.
  - intros c row Hrow. rewrite Hcreds.
    destruct (ValidatedData.credential validated_data) as [[access_key access_secret]|];
      [|exact Hrow].
    rewrite lookup_insert_ne; [exact Hrow|].
    intros <-. rewrite fresh_pk_unused in Hrow. discriminate.
  - unfold attached_credential. rewrite Hcreds.
    destruct (ValidatedData.credential validated_data) as [[access_key access_secret]|].
    + exists (fresh (dom (credentials db))). split; [apply fresh_pk_unused | auto].
    + auto.
Qed.

(** X14. [deleted] is a writable field of the serializer: a table created
    with [deleted = True] is stored, but no view of the team loads it
    and its name is as free as before. *)
Theorem create_deleted team user validated_data db pk table db1 :
  create get_columns team user validated_data db = (Return (pk, table), db1) ->
  ValidatedData.deleted validated_data = true ->
  tables db1 !! pk = Some table
  /\ lookup_object team pk db1 = None
  /\ table_name_exists team (ValidatedData.name validated_data) db1 = false.
Proof.
  intros Hcreate Hdeleted.
  destruct (create_Return _ _ _ _ _ _ _ Hcreate)
    as (Hfree & -> & (columns & _ & ->) & Htables & _).
  assert (Hrow : tables db1 !! fresh (dom (tables db))
                 = Some (Tbl.set_columns
                           (new_table team user validated_data
                              (attached_credential validated_data db)) columns)).
  { rewrite Htables. apply lookup_insert_eq. }
  split; [exact Hrow|]. split.
  - apply lookup_object_None. right. eexists. split; [exact Hrow|]. right. exact Hdeleted.
  - apply table_name_exists_false. intros pk' row Hrow' Hname.
    rewrite Htables, lookup_insert in Hrow'. case_decide.
    + injection Hrow' as <-. left. exact Hdeleted.
    + apply not_true_iff_false in Hfree.
      destruct (Tbl.deleted row) eqn:Hdel; [auto|]. right. intros Hteam.
      apply Hfree, table_name_exists_true. exists pk', row. auto.
Qed.

(** X15. [create] raises nothing but [ValidationError], and a [create]
    that raises has stored no table and queued no task; every credential
    that was there is kept, and without credential fields the database
    is the one it was given. *)
Theorem create_failure_frame team user validated_data db e db1 :
  create get_columns team user validated_data db = (Raise e, db1) ->
  (exists detail, e = ValidationError detail)
  /\ tables db1 = tables db
  /\ tasks db1 = tasks db
  /\ (forall c row, credentials db !! c = Some row -> credentials db1 !! c = Some row)
  /\ (ValidatedData.credential validated_data = None -> db1 = db).
Proof.
  intros Hcreate.
  destruct (create_Raise _ _ _ _ _ _ Hcreate)
    as [[-> ->]|(err & _ & -> & Htables & Htasks & Hcreds)].
  { repeat split; eauto. }
  split; [eauto|]. split; [exact Htables|]. split; [exact Htasks|]. split.
  - intros c row Hrow. rewrite Hcreds.
    destruct (ValidatedData.credential validated_data) as [[access_key access_secret]|];
      [|exact Hrow].
    rewrite lookup_insert_ne; [exact Hrow|].
    intros <-. rewrite fresh_pk_unused in Hrow. discriminate.
  - intros Hnone. rewrite Hnone in Hcreds.
    destruct db, db1. simpl in *. congruence.
Qed.

End LifecycleMore.

(** ** [perform_update] *)

Lemma has_members_true credential_data :
  has_members credential_data = true ->
  exists access_key access_secret,
    credential_data = Some (access_key, access_secret)
    /\ (is_Some access_key \/ is_Some access_secret).
Proof.
  destruct credential_data as [[[k|] [s|]]|]; try discriminate; eauto 6.
Qed.

Lemma has_members_Some access_key access_secret :
  is_Some access_key \/ is_Some access_secret ->
  has_members (Some (access_key, access_secret)) = true.
Proof.
  intros [[k ->]|[s ->]]; [reflexivity|]. destruct access_key; reflexivity.
Qed.

Lemma perform_update_scalars pk instance validated_data db :
  has_members (UpdateData.credential validated_data) = false ->
  perform_update pk instance validated_data db
  = (Return tt,
     MkDB (<[pk := set_attrs instance validated_data]> (tables db))
          (credentials db) (tasks db)).
Proof. intros Hnone. unfold perform_update, bind, pure, save. rewrite Hnone. reflexivity. Qed.

(** A [create] whose name is free and whose synchronizer returns. *)
Lemma create_returns get_columns team user validated_data db columns :
  table_name_exists team (ValidatedData.name validated_data) db = false ->
  get_columns (new_table team user validated_data (attached_credential validated_data db))
  = inr columns ->
  exists db1,
    create get_columns team user validated_data db
    = (Return (fresh (dom (tables db)),
               Tbl.set_columns
                 (new_table team user validated_data
                    (attached_credential validated_data db)) columns),
       db1).
Proof.
  intros Hfree Hsync.
  unfold create, attached_credential, bind, query, create_credential, save, delay, pure in *.
  rewrite Hfree.
  destruct (ValidatedData.credential validated_data) as [[access_key access_secret]|];
    simpl; rewrite Hsync; eauto.
Qed.

(** X16. A credential dict in an update is merged into the credential of
    the table: a member that the payload carries replaces the stored one,
    a member that it leaves out is kept, the team of the credential is
    kept, and no other credential is touched. *)
Theorem perform_update_merges_credential pk instance validated_data db
    access_key access_secret c row :
  UpdateData.credential validated_data = Some (access_key, access_secret) ->
  is_Some access_key \/ is_Some access_secret ->
  Tbl.credential instance = Some c ->
  credentials db !! c = Some row ->
  exists db',
    perform_update pk instance validated_data db = (Return tt, db')
    /\ credentials db' !! c
       = Some (Cred.Make (Cred.team_id row)
                         (default (Cred.access_key row) access_key)
                         (default (Cred.access_secret row) access_secret))
    /\ (forall c', c' <> c -> credentials db' !! c' = credentials db !! c')
    /\ tables db' !! pk = Some (set_attrs instance validated_data).
Proof.
  intros Hdata Hmembers Hfk Hrow.
  unfold perform_update, bind, load_credential, save_credential, save, pure.
  rewrite Hdata, (has_members_Some _ _ Hmembers), Hfk, Hrow. simpl.
  eexists. split; [reflexivity|]. simpl.
  split; [apply lookup_insert_eq|].
  split; [intros c' Hne; apply lookup_insert_ne; congruence | apply lookup_insert_eq].
Qed.

(** X17. A credential dict with a member, sent for a table that has no
    credential: the attribute read on [None] raises [AttributeError]
    before anything is saved, so the other fields of the same request
    are not written either. *)
Theorem perform_update_without_credential pk instance validated_data db :
  has_members (UpdateData.credential validated_data) = true ->
  Tbl.credential instance = None ->
  perform_update pk instance validated_data db = (Raise AttributeError, db).
Proof.
  intros Hmembers Hfk. unfold perform_update, bind, load_credential.
  rewrite Hmembers, Hfk. reflexivity.
Qed.

(** X18. [perform_update] either raises with the database untouched, or
    returns having written the row at [pk]. It never queues a task,
    never touches another row, never adds or removes a credential, and
    in the row it writes, the team, the creator, the credential
    reference, the external data source and the catalog are those of
    the instance. *)
Theorem perform_update_frame pk instance validated_data db :
  let result := perform_update pk instance validated_data db in
  tasks result.2 = tasks db
  /\ (forall pk', pk' <> pk -> tables result.2 !! pk' = tables db !! pk')
  /\ (forall c, is_Some (credentials result.2 !! c) <-> is_Some (credentials db !! c))
  /\ ((exists e, result = (Raise e, db))
      \/ (result.1 = Return tt
          /\ exists row,
               tables result.2 !! pk = Some row
               /\ Tbl.team_id row = Tbl.team_id instance
               /\ Tbl.created_by row = Tbl.created_by instance
               /\ Tbl.credential row = Tbl.credential instance
               /\ Tbl.external_data_source row = Tbl.external_data_source instance
               /\ Tbl.columns row = Tbl.columns instance)).
Proof.
  cbv zeta.
  destruct (has_members (UpdateData.credential validated_data)) eqn:Hmembers.
  2: { rewrite perform_update_scalars by exact Hmembers. simpl.
       split; [reflexivity|].
       split; [intros pk' Hne; apply lookup_insert_ne; congruence|].
       split; [tauto|]. right. split; [reflexivity|].
       eexists. split; [apply lookup_insert_eq|]. auto. }
  destruct (has_members_true _ Hmembers) as (k & s & Hdata & Hsome).
  unfold perform_update, bind, load_credential, save_credential, save, pure.
  rewrite Hmembers.
  destruct (Tbl.credential instance) as [c|] eqn:Hfk; simpl.
  2: { split; [reflexivity|]. split; [reflexivity|]. split; [tauto|]. left. eauto. }
  destruct (credentials db !! c) as [row|] eqn:Hrow; simpl.
  2: { split; [reflexivity|]. split; [reflexivity|]. split; [tauto|]. left. eauto. }
  split; [reflexivity|].
  split; [intros pk' Hne; apply lookup_insert_ne; congruence|].
  split.
  { intros c'. rewrite lookup_insert. case_decide; subst; [|tauto].
    rewrite Hrow. split; eauto. }
  right. split; [reflexivity|].
  eexists. split; [apply lookup_insert_eq|]. auto.
Qed.

(** X19. Unlike [create], an update does not look at the names in use:
    renaming a table to the name of another table of the team that is
    not deleted goes through, and the team then has two tables of that
    name that its views load. *)
Theorem perform_update_allows_duplicate_name pk pk' instance other validated_data db :
  tables db !! pk = Some instance ->
  tables db !! pk' = Some other ->
  pk' <> pk ->
  Tbl.deleted instance = false -> Tbl.deleted other = false ->
  Tbl.team_id other = Tbl.team_id instance ->
  UpdateData.name validated_data = Some (Tbl.name other) ->
  UpdateData.deleted validated_data = None ->
  has_members (UpdateData.credential validated_data) = false ->
  exists db' row,
    perform_update pk instance validated_data db = (Return tt, db')
    /\ lookup_object (Tbl.team_id instance) pk db' = Some row
    /\ lookup_object (Tbl.team_id instance) pk' db' = Some other
    /\ Tbl.name row = Tbl.name other.
Proof.
  intros Hrow Hother Hne Hlive Hlive' Hteam Hname Hdel Hnone.
  rewrite perform_update_scalars by exact Hnone.
  eexists _, (set_attrs instance validated_data). split; [reflexivity|].
  split; [|split].
  - apply lookup_object_stored.
    + simpl. apply lookup_insert_eq.
    + reflexivity.
    + unfold set_attrs. simpl. rewrite Hdel. exact Hlive.
  - apply lookup_object_stored; try assumption.
    simpl. rewrite lookup_insert_ne by congruence. exact Hother.
  - unfold set_attrs. simpl. rewrite Hname. reflexivity.
Qed.

(** X20. [destroy] refuses a table linked to an external data source,
    but [deleted] is a writable field of the serializer and
    [perform_update] has no such guard: an update with [deleted = True]
    soft-deletes the sourced table, after which no view loads it. *)
Theorem perform_update_deletes_sourced team pk instance validated_data db :
  lookup_object team pk db = Some instance ->
  is_Some (Tbl.external_data_source instance) ->
  UpdateData.deleted validated_data = Some true ->
  has_members (UpdateData.credential validated_data) = false ->
  destroy team pk db = (Return (MkResponse 400 (Some CantDeleteSourcedTable)), db)
  /\ exists db',
       perform_update pk instance validated_data db = (Return tt, db')
       /\ (Tbl.deleted <$> tables db' !! pk) = Some true
       /\ forall team', lookup_object team' pk db' = None.
Proof.
  intros Hget [source Hsrc] Hdel Hnone. split.
  { unfold destroy, bind, get_object, pure. rewrite Hget, Hsrc. reflexivity. }
  rewrite perform_update_scalars by exact Hnone.
  eexists. split; [reflexivity|]. simpl. rewrite lookup_insert_eq. simpl. rewrite Hdel.
  split; [reflexivity|].
  intros team'. apply lookup_object_None. right.
  eexists. split; [apply lookup_insert_eq|]. right. simpl. rewrite Hdel. reflexivity.
Qed.

(** X21. Soft-deleting through an update frees the name: when the table
    was the only one of its name in the team that was not deleted, a
    [create] with that name after the update returns a table, provided
    the synchronizer returns a catalog. *)
Theorem perform_update_frees_name get_columns team user pk instance validated_data db
    validated_data' columns :
  tables db !! pk = Some instance ->
  (forall pk' row, pk' <> pk -> tables db !! pk' = Some row ->
                   Tbl.name row = Tbl.name instance ->
                   Tbl.deleted row = true \/ Tbl.team_id row <> team) ->
  UpdateData.deleted validated_data = Some true ->
  UpdateData.name validated_data = None ->
  has_members (UpdateData.credential validated_data) = false ->
  ValidatedData.name validated_data' = Tbl.name instance ->
  (forall credential, get_columns (new_table team user validated_data' credential)
                      = inr columns) ->
  exists db' new_pk table db2,
    perform_update pk instance validated_data db = (Return tt, db')
    /\ create get_columns team user validated_data' db' = (Return (new_pk, table), db2)
    /\ new_pk <> pk
    /\ Tbl.name table = Tbl.name instance.
Proof.
  intros Hrow Honly Hdel Hname Hnone Hname' Hsync.
  rewrite perform_update_scalars by exact Hnone.
  set (db' := MkDB (<[pk := set_attrs instance validated_data]> (tables db))
                   (credentials db) (tasks db)).
  destruct (create_returns get_columns team user validated_data' db' columns)
    as [db2 Hcreate].
  - apply table_name_exists_false. intros pk' row Hrow' Hsame.
    unfold db' in Hrow'. simpl in Hrow'. rewrite lookup_insert in Hrow'. case_decide.
    + injection Hrow' as <-. left. simpl. rewrite Hdel. reflexivity.
    + apply (Honly pk' row); [congruence | exact Hrow' | congruence].
  - apply Hsync.
  - exists db'. eexists _, _, db2. split; [reflexivity|]. split; [exact Hcreate|].
    split.
    + intros Heq. pose proof (fresh_pk_unused (tables db')) as Hfresh.
      rewrite Heq in Hfresh. unfold db' in Hfresh. simpl in Hfresh.
      rewrite lookup_insert_eq in Hfresh. discriminate.
    + simpl. exact Hname'.
Qed.

(** ** The serializers *)

Section SerializerProperties.

Context {Database FieldSet FieldType FieldTree TableRef Chain : Type}.
Context (create_hogql_database : nat -> Database)
        (has_table : Database -> string -> bool)
        (serialize_fields :
           FieldSet -> Database -> option nat -> Tbl.t -> option (gmap string column)
           -> list (SerializedField FieldType FieldTree TableRef Chain)).

(** X22. With a database in the context that has a table of this name,
    [TableSerializer.get_columns] takes the fields from that table and
    the result does not depend on the table's own definition; with one
    that has no such table, it takes them from the table's definition
    and does not depend on what the database would return. In both
    cases every field it returns is keyed by its name and the names come
    in the order [serialize_fields] gave them. *)
Theorem TableSerializer_get_columns_source database team table
    (get_table_fields get_table_fields' : Database -> string -> FieldSet)
    (hogql_definition_fields hogql_definition_fields' : Tbl.t -> FieldSet) :
  let context := MkContext Database (Some database) (Some team) in
  let get_columns gtf hdf :=
    TableSerializer_get_columns Database FieldSet FieldType FieldTree TableRef Chain
      create_hogql_database has_table gtf hdf serialize_fields context table in
  (has_table database (Tbl.name table) = true ->
   get_columns get_table_fields hogql_definition_fields
   = get_columns get_table_fields hogql_definition_fields')
  /\ (has_table database (Tbl.name table) = false ->
      get_columns get_table_fields hogql_definition_fields
      = get_columns get_table_fields' hogql_definition_fields)
  /\ exists serialized,
       get_columns get_table_fields hogql_definition_fields
       = Return (rekey FieldType FieldTree TableRef Chain <$> serialized)
       /\ serialized
          = serialize_fields
              (if has_table database (Tbl.name table)
               then get_table_fields database (Tbl.name table)
               else hogql_definition_fields table)
              database (Some team) table (Some (Tbl.columns table))
       /\ Forall (fun field => sf_key _ _ _ _ field = sf_name _ _ _ _ field)
                 (rekey FieldType FieldTree TableRef Chain <$> serialized)
       /\ sf_name _ _ _ _ <$> (rekey FieldType FieldTree TableRef Chain <$> serialized)
          = sf_name _ _ _ _ <$> serialized.
Proof.
  cbv zeta. unfold TableSerializer_get_columns. simpl.
  split; [intros ->; reflexivity|]. split; [intros ->; reflexivity|].
  eexists. split; [reflexivity|]. split; [reflexivity|]. split.
  - apply Forall_fmap, Forall_true. reflexivity.
  - rewrite <- list_fmap_compose. reflexivity.
Qed.

(** X23. The two serializers read the team differently. A context with a
    database but no "team_id" makes [TableSerializer.get_columns] raise
    [KeyError], while [SimpleTableSerializer.get_columns] returns, with
    no team in the query context; with neither a database nor a
    "team_id" both raise [KeyError]. *)
Theorem get_columns_without_team_id database table
    (get_table_fields : Database -> string -> FieldSet)
    (hogql_definition_fields : Tbl.t -> FieldSet) :
  TableSerializer_get_columns Database FieldSet FieldType FieldTree TableRef Chain
    create_hogql_database has_table get_table_fields hogql_definition_fields
    serialize_fields (MkContext Database (Some database) None) table
  = Raise (KeyError "team_id")
  /\ SimpleTableSerializer_get_columns Database FieldSet FieldType FieldTree TableRef Chain
       create_hogql_database hogql_definition_fields serialize_fields
       (MkContext Database (Some database) None) table
     = Return (rekey FieldType FieldTree TableRef Chain
                 <$> serialize_fields (hogql_definition_fields table) database None table None)
  /\ TableSerializer_get_columns Database FieldSet FieldType FieldTree TableRef Chain
       create_hogql_database has_table get_table_fields hogql_definition_fields
       serialize_fields (MkContext Database None None) table
     = Raise (KeyError "team_id")
  /\ SimpleTableSerializer_get_columns Database FieldSet FieldType FieldTree TableRef Chain
       create_hogql_database hogql_definition_fields serialize_fields
       (MkContext Database None None) table
     = Raise (KeyError "team_id").
Proof. repeat split; reflexivity. Qed.

End SerializerProperties.

(** * The further properties on the worked instance *)

Lemma spec_registry_accepts_FLOAT :
  accepted spec_field_types spec_clickhouse_mapping spec_hogql_mapping
           "FLOAT" "Float64" "FloatDatabaseField".
Proof.
  split; [|split]; [|vm_compute; reflexivity..].
  apply list_elem_of_In. simpl. auto.
Qed.

Lemma update_id_and_amount :
  exists db',
    spec_update_schema 1 1 (JObj [("id", JStr "FLOAT"); ("amount", JStr "STRING")]) example_db
    = (Return (MkResponse HTTP_200_OK None), db')
    /\ forall key s ch h,
         (key, JStr s) ∈ [("id", JStr "FLOAT"); ("amount", JStr "STRING")] ->
         accepted spec_field_types spec_clickhouse_mapping spec_hogql_mapping s ch h ->
         exists d b,
           stored_column db' 1 key = Some (Descriptor d)
           /\ d !! "clickhouse" = Some (JStr ("Nullable(" +:+ ch +:+ ")"))
           /\ d !! "hogql" = Some (JStr h)
           /\ d !! "valid" = Some (JBool b).
Proof.
  apply (update_schema_many spec_field_types spec_clickhouse_mapping spec_hogql_mapping
           no_arrays 1 1 example_db orders).
  - vm_compute. reflexivity.
  - reflexivity.
  - apply (bool_decide_unpack _). vm_compute. exact I.
  - intros k Hk. simpl in Hk.
    apply elem_of_cons in Hk as [->|Hk]; [vm_compute; eauto|].
    apply list_elem_of_singleton in Hk as ->. vm_compute. eauto.
  - repeat constructor.
    + exists "FLOAT", "Float64", "FloatDatabaseField".
      split; [reflexivity | exact spec_registry_accepts_FLOAT].
    + exists "STRING", "String", "StringDatabaseField".
      split; [reflexivity | exact spec_registry_accepts_STRING].
Defined.

Lemma update_orders_with_a_string :
  spec_update_schema 1 1 (JStr "amount") example_db = (Raise AttributeError, example_db).
Proof.
  apply (update_schema_not_a_dict spec_field_types spec_clickhouse_mapping spec_hogql_mapping
           no_arrays 1 1 example_db orders (JStr "amount")).
  - vm_compute. reflexivity.
  - reflexivity.
  - discriminate.
  - discriminate.
Defined.

Lemma update_orders_with_nothing_to_do :
  spec_update_schema 1 1 (JObj []) example_db
  = (Return (MkResponse HTTP_200_OK None), example_db).
Proof.
  apply (update_schema_empty_dict spec_field_types spec_clickhouse_mapping spec_hogql_mapping
           no_arrays 1 1 example_db orders).
  - vm_compute. reflexivity.
  - reflexivity.
Defined.

Lemma update_nested_payload :
  exists current_value',
    stored_column (spec_update_schema 1 1 (JObj [("payload", JStr "STRING")]) nested_db).2
                  1 "payload"
    = Some current_value'
    /\ forall m, m <> "clickhouse" -> m <> "hogql" -> m <> "valid" ->
                 members_of current_value' !! m
                 = members_of (Descriptor nested_descriptor) !! m.
Proof.
  apply (update_schema_keeps_other_members spec_field_types spec_clickhouse_mapping
           spec_hogql_mapping no_arrays 1 1 (JObj [("payload", JStr "STRING")])
           nested_db nested_table "payload" (Descriptor nested_descriptor)).
  - vm_compute. reflexivity.
  - vm_compute. reflexivity.
Defined.

(** [archive] (pk 3) is soft-deleted, [other_orders] (pk 4) belongs to
    team 2, and there is no row 9. *)
Lemma views_on_hidden_rows :
  ((forall updates,
       updates <> JNull ->
       spec_update_schema 1 3 updates example_db = (Raise Http404, example_db))
   /\ destroy 1 3 example_db = (Raise Http404, example_db)
   /\ refresh_schema steady_source 1 3 example_db = (Raise Http404, example_db))
  /\ destroy 1 4 example_db = (Raise Http404, example_db)
  /\ destroy 1 9 example_db = (Raise Http404, example_db).
Proof.
  split; [|split].
  - apply (views_hide_other_rows spec_field_types spec_clickhouse_mapping spec_hogql_mapping
             no_arrays steady_source 1 3 example_db).
    right. exists archive. split; [vm_compute; reflexivity | right; reflexivity].
  - apply (views_hide_other_rows spec_field_types spec_clickhouse_mapping spec_hogql_mapping
             no_arrays steady_source 1 4 example_db).
    right. exists other_orders. split; [vm_compute; reflexivity | left; simpl; lia].
  - apply (views_hide_other_rows spec_field_types spec_clickhouse_mapping spec_hogql_mapping
             no_arrays steady_source 1 9 example_db).
    left. vm_compute. reflexivity.
Defined.

Lemma refresh_orders_after_update :
  refresh_schema steady_source 1 1
    (spec_update_schema 1 1 (JObj [("amount", JStr "STRING")]) example_db).2
  = refresh_schema steady_source 1 1 example_db.
Proof.
  apply (refresh_discards_overrides spec_field_types spec_clickhouse_mapping
           spec_hogql_mapping no_arrays steady_source 1 1
           (JObj [("amount", JStr "STRING")]) example_db orders example_columns).
  - vm_compute. reflexivity.
  - reflexivity.
  - reflexivity.
Defined.

Lemma create_archive_returns :
  create steady_source 1 1 archive_request example_db
  = (Return (archive_pk, archive_table), archive_db).
Proof. vm_compute. reflexivity. Qed.

Lemma create_staging_returns :
  create steady_source 1 1 staging_request example_db
  = (Return (archive_pk, staging_table), staging_db).
Proof. vm_compute. reflexivity. Qed.

Lemma create_archive_twice :
  create broken_source 1 2 archive_request archive_db
  = (Raise (ValidationError "Table name already exists."), archive_db).
Proof.
  apply (create_then_create steady_source 1 1 archive_request example_db
           archive_pk archive_table archive_db broken_source 2 archive_request).
  - exact create_archive_returns.
  - reflexivity.
  - reflexivity.
Defined.

Lemma create_archive_then_load :
  lookup_object 1 archive_pk archive_db = Some archive_table
  /\ (forall team', team' <> 1 -> lookup_object team' archive_pk archive_db = None)
  /\ Tbl.external_data_source archive_table = None
  /\ tables example_db !! archive_pk = None.
Proof.
  apply (create_then_get_object steady_source 1 1 archive_request example_db
           archive_pk archive_table archive_db).
  - exact create_archive_returns.
  - reflexivity.
Defined.

Lemma create_archive_keeps_rows :
  (forall pk' row, tables example_db !! pk' = Some row -> tables archive_db !! pk' = Some row)
  /\ (forall c row, credentials example_db !! c = Some row ->
                    credentials archive_db !! c = Some row)
  /\ exists c,
       credentials example_db !! c = None
       /\ credentials archive_db
          = <[c := Cred.Make 1 "AKIAEXAMPLE" "secret"]> (credentials example_db)
       /\ Tbl.credential archive_table = Some c.
Proof.
  apply (create_frame steady_source 1 1 archive_request example_db
           archive_pk archive_table archive_db).
  exact create_archive_returns.
Defined.

Lemma create_staging_deleted :
  tables staging_db !! archive_pk = Some staging_table
  /\ lookup_object 1 archive_pk staging_db = None
  /\ table_name_exists 1 "staging" staging_db = false.
Proof.
  apply (create_deleted steady_source 1 1 staging_request example_db
           archive_pk staging_table staging_db).
  - exact create_staging_returns.
  - reflexivity.
Defined.

Lemma create_archive_fails_cleanly :
  (exists detail, ValidationError "Could not get columns" = ValidationError detail)
  /\ tables (create broken_source 1 1 archive_request example_db).2 = tables example_db
  /\ tasks (create broken_source 1 1 archive_request example_db).2 = tasks example_db
  /\ (forall c row,
        credentials example_db !! c = Some row ->
        credentials (create broken_source 1 1 archive_request example_db).2 !! c = Some row)
  /\ (ValidatedData.credential archive_request = None ->
      (create broken_source 1 1 archive_request example_db).2 = example_db).
Proof.
  apply (create_failure_frame broken_source 1 1 archive_request example_db).
  vm_compute. reflexivity.
Defined.

Lemma rotate_secret_of_orders :
  exists db',
    perform_update 1 orders_with_credential rotate_secret vault_db = (Return tt, db')
    /\ credentials db' !! 5
       = Some (Cred.Make (Cred.team_id shared_credential)
                         (default (Cred.access_key shared_credential) None)
                         (default (Cred.access_secret shared_credential) (Some "new-secret")))
    /\ (forall c', c' <> 5 -> credentials db' !! c' = credentials vault_db !! c')
    /\ tables db' !! 1 = Some (set_attrs orders_with_credential rotate_secret).
Proof.
  apply (perform_update_merges_credential 1 orders_with_credential rotate_secret vault_db
           None (Some "new-secret") 5 shared_credential).
  - reflexivity.
  - right. eauto.
  - reflexivity.
  - vm_compute. reflexivity.
Defined.

Lemma rotate_secret_without_credential :
  perform_update 1 orders rotate_secret example_db = (Raise AttributeError, example_db).
Proof.
  apply (perform_update_without_credential 1 orders rotate_secret example_db); reflexivity.
Defined.

Lemma rename_orders_to_events :
  exists db' row,
    perform_update 1 orders_with_credential rename_to_events vault_db = (Return tt, db')
    /\ lookup_object (Tbl.team_id orders_with_credential) 1 db' = Some row
    /\ lookup_object (Tbl.team_id orders_with_credential) 2 db' = Some events_with_credential
    /\ Tbl.name row = Tbl.name events_with_credential.
Proof.
  apply (perform_update_allows_duplicate_name 1 2 orders_with_credential
           events_with_credential rename_to_events vault_db).
  - vm_compute. reflexivity.
  - vm_compute. reflexivity.
  - lia.
  - reflexivity.
  - reflexivity.
  - reflexivity.
  - reflexivity.
  - reflexivity.
  - reflexivity.
Defined.

Lemma delete_sourced_events_by_update :
  destroy 1 2 vault_db = (Return (MkResponse 400 (Some CantDeleteSourcedTable)), vault_db)
  /\ exists db',
       perform_update 2 events_with_credential mark_deleted vault_db = (Return tt, db')
       /\ (Tbl.deleted <$> tables db' !! 2) = Some true
       /\ forall team', lookup_object team' 2 db' = None.
Proof.
  apply (perform_update_deletes_sourced 1 2 events_with_credential mark_deleted vault_db).
  - vm_compute. reflexivity.
  - exists 7. reflexivity.
  - reflexivity.
  - reflexivity.
Defined.

Lemma delete_orders_then_create_orders :
  exists db' new_pk table db2,
    perform_update 1 orders_with_credential mark_deleted vault_db = (Return tt, db')
    /\ create steady_source 1 1 orders_request db' = (Return (new_pk, table), db2)
    /\ new_pk <> 1
    /\ Tbl.name table = Tbl.name orders_with_credential.
Proof.
  apply (perform_update_frees_name steady_source 1 1 1 orders_with_credential mark_deleted
           vault_db orders_request example_columns).
  - vm_compute. reflexivity.
  - intros pk' row Hne Hrow Hname. exfalso.
    unfold vault_db in Hrow. simpl in Hrow. rewrite !lookup_insert in Hrow.
    repeat case_decide; try lia; try discriminate.
    injection Hrow as <-. discriminate.
  - reflexivity.
  - reflexivity.
  - reflexivity.
  - reflexivity.
  - reflexivity.
Defined.

(** "String", "STRING" and "string" are one type for the check, and
    "another_type" in any case is none. *)
Lemma check_String_as_STRING :
  (is_Some (parse_type spec_field_types (JStr "String"))
   <-> is_Some (parse_type spec_field_types (JStr "STRING")))
  /\ (parse_type spec_field_types (JStr "String") = None ->
      set_type spec_field_types spec_clickhouse_mapping spec_hogql_mapping
               example_columns "amount" (JStr "String")
      = Return (MkResponse 400 (Some (CanNotParseType (JStr "String") "amount")))
      /\ set_type spec_field_types spec_clickhouse_mapping spec_hogql_mapping
                  example_columns "amount" (JStr "STRING")
         = Return (MkResponse 400 (Some (CanNotParseType (JStr "STRING") "amount")))).
Proof.
  apply (type_check_ignores_case spec_field_types spec_clickhouse_mapping spec_hogql_mapping
           example_columns "amount" "String" "STRING"); reflexivity.
Defined.

Example check_another_type_in_any_case :
  parse_type spec_field_types (JStr "Another_Type") = None
  /\ parse_type spec_field_types (JStr "string") = Some "string"
  /\ parse_type spec_field_types (JStr "sTrInG") = Some "sTrInG".
Proof. repeat split; vm_compute; reflexivity. Qed.
